(** * The adaptive difficulty engine of math-adaptive-prototype

    A shallow embedding of [src/adaptive_engine.py] (class [AdaptiveEngine]
    and the dataclass [AdaptationConfig]) together with the properties the
    specification states about it, followed by the code around the engine:
    the performance tracker of [src/tracker.py], the puzzle generator of
    [src/puzzle_generator.py] and the session loop of [src/main.py], with
    properties read off that code.

    Data is kept as the Python code has it:
    - Python [int] is [Z]; Python [float] (IEEE binary64) is Rocq's primitive
      [float], so every comparison below rounds and treats infinities and NaN
      exactly as CPython does;
    - difficulty names are strings, and the two class-level dictionaries
      [DIFFICULTY_MAP] and [REVERSE_MAP] are finite maps whose failed lookups
      raise [KeyError];
    - the engine object is a record that is threaded through the methods;
      a method that may raise returns a [result];
    - what the environment delivers (the clock, the draws of [random], the
      console) is an argument of the function that asks for it. *)

From Stdlib Require Import ZArith List Bool Floats Uint63 Lia Sorted.
From stdpp Require Import base option strings gmap.
Import ListNotations.

Local Open Scope Z_scope.

(** ** Python values and exceptions *)

(** Keys of the two dictionaries: strings and ints. *)
Inductive pykey : Type :=
| KStr (s : string)
| KInt (z : Z).

(** The only exception the module can raise is the [KeyError] of a failed
    dictionary subscript. *)
Inductive exn : Type :=
| KeyError (key : pykey).

Inductive result (A : Type) : Type :=
| Ok (a : A)
| Raise (e : exn).
Arguments Ok {A} a.
Arguments Raise {A} e.

#[global] Instance result_ret : MRet result := fun A a => Ok a.
#[global] Instance result_bind : MBind result := fun A B f m =>
  match m with
  | Ok a => f a
  | Raise e => Raise e
  end.

(** A number stored in a history entry: the literal [0] is a Python [int],
    a computed percentage or mean is a [float]. *)
Inductive pynum : Type :=
| PyInt (z : Z)
| PyFloat (f : float).

(** ** Float helpers, named after the Python operators they stand for *)

Definition fge (a b : float) : bool := PrimFloat.leb b a.   (* a >= b *)
Definition fle (a b : float) : bool := PrimFloat.leb a b.   (* a <= b *)
Definition fgt (a b : float) : bool := PrimFloat.ltb b a.   (* a > b *)
Definition flt (a b : float) : bool := PrimFloat.ltb a b.   (* a < b *)

(** [float(n)] for a Python int; exact below 2^53, which bounds every list
    length and count that can occur. *)
Definition float_of_int (z : Z) : float := PrimFloat.of_uint63 (Uint63.of_Z z).

(** [a / b] on two Python ints (true division). *)
Definition true_div (a b : Z) : float :=
  PrimFloat.div (float_of_int a) (float_of_int b).

(** [len(l)]. *)
Definition len {A : Type} (l : list A) : Z := Z.of_nat (length l).

(** [sum(l)] on a list of bools: the builtin adds the items to 0, left to
    right, with [True] counting 1 and [False] 0. *)
Definition py_sum (l : list bool) : Z :=
  fold_left (fun acc b => acc + Z.b2z b) l 0.

(** Modelled from the spec: [numpy.mean] is a library routine that is not
    part of the repository; the specification describes it as the arithmetic
    mean of the supplied times, which is what this definition computes (sum
    from left to right, divided by the number of items). *)
Definition np_mean (l : list float) : float :=
  PrimFloat.div (fold_left PrimFloat.add l 0%float) (float_of_int (len l)).

(** ** Configuration (dataclass [AdaptationConfig]) *)

(** [rule_based_thresholds]: a dict read at exactly the keys ['high'] and
    ['low'], the shape its default factory and [main.py] build. *)
Record Thresholds : Type := {
  high : float;
  low : float
}.

Record AdaptationConfig : Type := {
  rule_based_thresholds : Thresholds;
  lookback_window : Z;
  min_attempts_before_change : Z
}.

(** [AdaptationConfig()] with every field defaulted. *)
Definition default_config : AdaptationConfig :=
  {| rule_based_thresholds := {| high := 75%float; low := 50%float |};
     lookback_window := 5;
     min_attempts_before_change := 3 |}.

(** ** Engine state (class [AdaptiveEngine]) *)

(** One entry of [self.history]: a dict with the five keys below. *)
Record HistoryEntry : Type := {
  attempt : Z;
  from : string;
  to : string;
  accuracy : pynum;
  avg_time : pynum
}.

Record AdaptiveEngine : Type := {
  config : AdaptationConfig;
  attempt_count : Z;
  history : list HistoryEntry
}.

(** The three class attributes. *)
Definition DIFFICULTY_LEVELS : list string :=
  ["EASY"%string; "MEDIUM"%string; "HARD"%string].

Definition DIFFICULTY_MAP : gmap string Z :=
  <["EASY"%string := 0]> (<["MEDIUM"%string := 1]> (<["HARD"%string := 2]> ∅)).

Definition REVERSE_MAP : gmap Z string :=
  <[0 := "EASY"%string]> (<[1 := "MEDIUM"%string]> (<[2 := "HARD"%string]> ∅)).

(** [d[k]]: a subscript raises [KeyError(k)] when the key is absent. *)
Definition getitem_str (d : gmap string Z) (k : string) : result Z :=
  match d !! k with
  | Some v => Ok v
  | None => Raise (KeyError (KStr k))
  end.

Definition getitem_int (d : gmap Z string) (k : Z) : result string :=
  match d !! k with
  | Some v => Ok v
  | None => Raise (KeyError (KInt k))
  end.

(** [AdaptiveEngine.__init__]: [config or AdaptationConfig()], a zero counter
    and an empty history.  A dataclass instance is always truthy, so only
    [None] selects the default.  The body has no [raise] and validates
    nothing. *)
Definition __init__ (cfg : option AdaptationConfig) : result AdaptiveEngine :=
  Ok {| config := match cfg with Some c => c | None => default_config end;
        attempt_count := 0;
        history := [] |}.

(** The [if/elif/else] cascade of [_adapt_rule_based] (its "Decision logic"
    block), from the current level to [next_level].  Python's [and]/[or]
    are [&&]/[||]; the operands have no effects. *)
Definition next_level (thresholds : Thresholds) (current_level : Z)
    (acc avg : float) : Z :=
  if fge acc (high thresholds) && flt avg 10%float then
    Z.min (current_level + 1) 2
  else if fle acc (low thresholds) || fgt avg 20%float then
    Z.max (current_level - 1) 0
  else if fgt acc 65%float && flt avg 12%float then
    Z.min (current_level + 1) 2
  else if flt acc 45%float || fgt avg 18%float then
    Z.max (current_level - 1) 0
  else
    current_level.

(** [(sum(recent_performance) / len(recent_performance)) * 100]. *)
Definition accuracy_pct (recent_performance : list bool) : float :=
  PrimFloat.mul (true_div (py_sum recent_performance) (len recent_performance))
                100%float.

(** [np.mean(recent_times) if recent_times else float('inf')]. *)
Definition decision_avg_time (recent_times : list float) : float :=
  match recent_times with
  | [] => infinity
  | _ :: _ => np_mean recent_times
  end.

(** [AdaptiveEngine._adapt_rule_based]. *)
Definition _adapt_rule_based (self : AdaptiveEngine)
    (current_difficulty : string) (recent_performance : list bool)
    (recent_times : list float) : result string :=
  match recent_performance with
  | [] => Ok current_difficulty
  | _ :: _ =>
    if len recent_performance <? min_attempts_before_change (config self) then
      Ok current_difficulty
    else
      let acc := accuracy_pct recent_performance in
      let avg := decision_avg_time recent_times in
      let thresholds := rule_based_thresholds (config self) in
      current_level ← getitem_str DIFFICULTY_MAP current_difficulty;
      getitem_int REVERSE_MAP (next_level thresholds current_level acc avg)
  end.

(** The two conditional expressions of the logged entry:
    [(sum(...) / len(...) * 100) if recent_performance else 0] and
    [np.mean(recent_times) if recent_times else 0]. *)
Definition logged_accuracy (recent_performance : list bool) : pynum :=
  match recent_performance with
  | [] => PyInt 0
  | _ :: _ => PyFloat (accuracy_pct recent_performance)
  end.

Definition logged_avg_time (recent_times : list float) : pynum :=
  match recent_times with
  | [] => PyInt 0
  | _ :: _ => PyFloat (np_mean recent_times)
  end.

(** [self.attempt_count += 1]. *)
Definition bump_attempt_count (self : AdaptiveEngine) : AdaptiveEngine :=
  {| config := config self;
     attempt_count := attempt_count self + 1;
     history := history self |}.

(** [self.history.append(entry)]. *)
Definition history_append (self : AdaptiveEngine) (entry : HistoryEntry)
    : AdaptiveEngine :=
  {| config := config self;
     attempt_count := attempt_count self;
     history := history self ++ [entry] |}.

(** [AdaptiveEngine.get_next_difficulty]: the method returns the engine as
    the call leaves it together with the outcome.  The counter is bumped
    first; if the rule raises, the exception propagates with the counter
    already changed and nothing appended. *)
Definition get_next_difficulty (self : AdaptiveEngine)
    (current_difficulty : string) (recent_performance : list bool)
    (recent_times : list float) : AdaptiveEngine * result string :=
  let self := bump_attempt_count self in
  match _adapt_rule_based self current_difficulty recent_performance
                          recent_times with
  | Raise e => (self, Raise e)
  | Ok next_diff =>
    (history_append self
       {| attempt := attempt_count self;
          from := current_difficulty;
          to := next_diff;
          accuracy := logged_accuracy recent_performance;
          avg_time := logged_avg_time recent_times |},
     Ok next_diff)
  end.

(** [AdaptiveEngine.get_adaptation_history]. *)
Definition get_adaptation_history (self : AdaptiveEngine) : list HistoryEntry :=
  history self.

(** [AdaptiveEngine.reset_history]. *)
Definition reset_history (self : AdaptiveEngine) : AdaptiveEngine :=
  {| config := config self; attempt_count := 0; history := [] |}.

(** ** The specification's vocabulary

    These definitions follow the words of the specification, not the code:
    the ordered enumeration of levels, the accuracy as a count over a length,
    the three tiers evaluated in the order A, B, C, the numbers stored in a
    decision record and the invariant of a configuration. *)
Module Spec.

Inductive DifficultyLevel : Type := EASY | MEDIUM | HARD.

Definition rank (d : DifficultyLevel) : Z :=
  match d with EASY => 0 | MEDIUM => 1 | HARD => 2 end.

Definition name (d : DifficultyLevel) : string :=
  match d with
  | EASY => "EASY"%string
  | MEDIUM => "MEDIUM"%string
  | HARD => "HARD"%string
  end.

(** accuracy = (count of true values / length) x 100 *)
Definition accuracy (recent_correctness : list bool) : float :=
  PrimFloat.mul
    (PrimFloat.div
       (float_of_int (Z.of_nat (count_occ Bool.bool_dec recent_correctness true)))
       (float_of_int (Z.of_nat (length recent_correctness))))
    100%float.

(** avg_time = arithmetic mean, or positive infinity without samples *)
Definition avg_time (recent_times : list float) : float :=
  match recent_times with
  | [] => infinity
  | _ => np_mean recent_times
  end.

Definition tier_A (high_accuracy_threshold acc avg : float) : bool :=
  fge acc high_accuracy_threshold && flt avg 10%float.

Definition tier_B (low_accuracy_threshold acc avg : float) : bool :=
  fle acc low_accuracy_threshold || fgt avg 20%float.

Definition tier_C (level : Z) (acc avg : float) : Z :=
  if fgt acc 65%float && flt avg 12%float then Z.min (level + 1) 2
  else if flt acc 45%float || fgt avg 18%float then Z.max (level - 1) 0
  else level.

Definition tier_level (high_accuracy_threshold low_accuracy_threshold : float)
    (level : Z) (acc avg : float) : Z :=
  if tier_A high_accuracy_threshold acc avg then Z.min (level + 1) 2
  else if tier_B low_accuracy_threshold acc avg then Z.max (level - 1) 0
  else tier_C level acc avg.

(** The record's stored numbers: 0 without samples. *)
Definition stored_accuracy (recent_correctness : list bool) : pynum :=
  match recent_correctness with
  | [] => PyInt 0
  | _ => PyFloat (accuracy recent_correctness)
  end.

Definition stored_avg_time (recent_times : list float) : pynum :=
  match recent_times with
  | [] => PyInt 0
  | _ => PyFloat (np_mean recent_times)
  end.

(** The configuration invariant of the data model: both thresholds in
    0..100, low below high, at least one attempt before a change. *)
Definition valid_config (c : AdaptationConfig) : bool :=
  let t := rule_based_thresholds c in
  fle 0%float (high t) && fle (high t) 100%float
  && fle 0%float (low t) && fle (low t) 100%float
  && flt (low t) (high t)
  && (1 <=? min_attempts_before_change c).

End Spec.

(** ** Statements and sample values used below *)

(** [n == 0] on a stored number. *)
Definition is_zero (n : pynum) : bool :=
  match n with
  | PyInt z => z =? 0
  | PyFloat f => PrimFloat.eqb f 0%float
  end.

(** An engine as [AdaptiveEngine(config)] leaves it. *)
Definition fresh (c : AdaptationConfig) : AdaptiveEngine :=
  {| config := c; attempt_count := 0; history := [] |}.

(** The default thresholds with the sample gate switched off. *)
Definition ungated_config : AdaptationConfig :=
  {| rule_based_thresholds := {| high := 75%float; low := 50%float |};
     lookback_window := 5;
     min_attempts_before_change := 0 |}.

(** Thresholds of 120 and 150 percent, low above high, and a gate of 0. *)
Definition ill_formed_config : AdaptationConfig :=
  {| rule_based_thresholds := {| high := 120%float; low := 150%float |};
     lookback_window := 5;
     min_attempts_before_change := 0 |}.

(** The inputs on which a call cannot reach a failing subscript: a name of
    the engine's levels, or a window the rule does not adapt on. *)
Definition in_domain (self : AdaptiveEngine) (current_difficulty : string)
    (recent_performance : list bool) : Prop :=
  In current_difficulty DIFFICULTY_LEVELS
  \/ recent_performance = []
  \/ len recent_performance < min_attempts_before_change (config self).

(** The tier algorithm gated by the length test alone: whenever the window
    holds at least [min_attempts_before_change] entries, the call answers
    with the level the tiers A, B, C give. *)
Definition tiers_decide (self : AdaptiveEngine) (d : Spec.DifficultyLevel)
    (recent_correctness : list bool) (recent_times : list float) : Prop :=
  min_attempts_before_change (config self) <= len recent_correctness ->
  exists d',
    snd (get_next_difficulty self (Spec.name d) recent_correctness recent_times)
    = Ok (Spec.name d')
    /\ Spec.rank d'
       = Spec.tier_level (high (rule_based_thresholds (config self)))
           (low (rule_based_thresholds (config self)))
           (Spec.rank d) (Spec.accuracy recent_correctness)
           (Spec.avg_time recent_times).

(** An empty correctness sequence logs two zeros, whatever the times are. *)
Definition empty_window_logs_zeros (self : AdaptiveEngine) (cur : string)
    (recent_times : list float) : Prop :=
  snd (get_next_difficulty self cur [] recent_times) = Ok cur
  /\ attempt_count (fst (get_next_difficulty self cur [] recent_times))
     = attempt_count self + 1
  /\ exists e,
       history (fst (get_next_difficulty self cur [] recent_times))
       = history self ++ [e]
       /\ is_zero (accuracy e) = true
       /\ is_zero (avg_time e) = true.

(** An empty time sequence sends the level one step down as soon as the
    length test passes. *)
Definition no_times_steps_down (self : AdaptiveEngine)
    (d : Spec.DifficultyLevel) (recent_correctness : list bool) : Prop :=
  min_attempts_before_change (config self) <= len recent_correctness ->
  exists d',
    snd (get_next_difficulty self (Spec.name d) recent_correctness [])
    = Ok (Spec.name d')
    /\ Spec.rank d' = Z.max (Spec.rank d - 1) 0.

(** The constructor validates its configuration. *)
Definition init_validates (c : AdaptationConfig) : Prop :=
  (Spec.valid_config c = false -> exists e, __init__ (Some c) = Raise e)
  /\ (Spec.valid_config c = true -> exists eng, __init__ (Some c) = Ok eng).

(** The entries a call has appended. *)
Definition appended (before after : AdaptiveEngine) : list HistoryEntry :=
  drop (length (history before)) (history after).

(** An entry without its sequence number. *)
Definition computed_fields (e : HistoryEntry)
    : string * string * pynum * pynum :=
  (from e, to e, accuracy e, avg_time e).

(** ** Order of binary64 values

    The comparisons of the rule are decided on the IEEE representation.  A
    value that is not NaN is given a key, a triple of integers compared
    lexicographically: class (negative infinity, negative, zero, positive,
    positive infinity), then exponent, then mantissa, the last two negated
    below zero. *)

Definition sf_key (f : spec_float) : Z * Z * Z :=
  match f with
  | S754_zero _ => (0, 0, 0)
  | S754_infinity s => (if s then -2 else 2, 0, 0)
  | S754_nan => (0, 0, 0)
  | S754_finite s m e => if s then (-1, - e, - Z.pos m) else (1, e, Z.pos m)
  end.

Definition sf_is_nan (f : spec_float) : bool :=
  match f with S754_nan => true | _ => false end.

Definition lex_lt (k1 k2 : Z * Z * Z) : Prop :=
  let '(a1, b1, c1) := k1 in
  let '(a2, b2, c2) := k2 in
  a1 < a2 \/ (a1 = a2 /\ (b1 < b2 \/ (b1 = b2 /\ c1 < c2))).

Definition lex_le (k1 k2 : Z * Z * Z) : Prop :=
  let '(a1, b1, c1) := k1 in
  let '(a2, b2, c2) := k2 in
  a1 < a2 \/ (a1 = a2 /\ (b1 < b2 \/ (b1 = b2 /\ c1 <= c2))).

Definition ordered (x : float) : Prop := sf_is_nan (Prim2SF x) = false.

Definition key (x : float) : Z * Z * Z := sf_key (Prim2SF x).

(** ** Sequences of method calls on one engine object *)

(** A client's use of the object: decision calls and resets.  A call that
    raises leaves the object as the exception found it, and the client goes
    on with the next operation. *)
Inductive EngineOp : Type :=
| OpNext (current_difficulty : string) (recent_performance : list bool)
         (recent_times : list float)
| OpReset.

Definition apply_op (self : AdaptiveEngine) (op : EngineOp) : AdaptiveEngine :=
  match op with
  | OpNext cur perf times => fst (get_next_difficulty self cur perf times)
  | OpReset => reset_history self
  end.

Definition run_ops (self : AdaptiveEngine) (ops : list EngineOp)
    : AdaptiveEngine :=
  fold_left apply_op ops self.

(** A decision call that cannot raise on this engine, that is, one on the
    inputs of [in_domain]. *)
Definition call_returns (self : AdaptiveEngine) (op : EngineOp) : Prop :=
  match op with
  | OpNext cur perf _ => in_domain self cur perf
  | OpReset => False
  end.

(** The sequence numbers of the history are strictly increasing, start
    above 0 and never exceed the attempt counter. *)
Definition history_numbered (self : AdaptiveEngine) : Prop :=
  StronglySorted Z.lt (map attempt (history self))
  /\ Forall (fun e => 1 <= attempt e <= attempt_count self) (history self).

(** The cascade without the test [accuracy < 45] of its middle band. *)
Definition next_level_without_45 (thresholds : Thresholds) (current_level : Z)
    (acc avg : float) : Z :=
  if fge acc (high thresholds) && flt avg 10%float then
    Z.min (current_level + 1) 2
  else if fle acc (low thresholds) || fgt avg 20%float then
    Z.max (current_level - 1) 0
  else if fgt acc 65%float && flt avg 12%float then
    Z.min (current_level + 1) 2
  else if fgt avg 18%float then
    Z.max (current_level - 1) 0
  else
    current_level.


(** ** Python list slicing *)

(** [l[start:]]: a negative start counts from the end, and the start is
    clamped to the list at both ends. *)
Definition slice_from {A : Type} (l : list A) (start : Z) : list A :=
  let start := if start <? 0 then Z.max (start + len l) 0
               else Z.min start (len l) in
  drop (Z.to_nat start) l.

(** ** The performance tracker ([src/tracker.py]) *)
Module Tracker.

(** A [datetime], kept as the microseconds it counts since the epoch.  The
    tracker only stores these values. *)
Definition datetime : Type := Z.

(** Dataclass [PerformanceRecord].  The default of [timestamp],
    [datetime.now()], is a reading of the clock and so an argument of
    whoever builds a record. *)
Record PerformanceRecord : Type := {
  puzzle_id : Z;
  difficulty : string;
  correct : bool;
  time_taken : float;
  user_answer : Z;
  correct_answer : Z;
  timestamp : datetime
}.

(** Property [PerformanceRecord.is_correct]. *)
Definition is_correct (r : PerformanceRecord) : bool := correct r.

(** Class [PerformanceTracker]. *)
Record PerformanceTracker : Type := {
  user_name : string;
  records : list PerformanceRecord;
  session_start : datetime
}.

(** What a tracker method yields: a value, or the [ZeroDivisionError] of a
    division by [len(records)] on an empty slice. *)
Inductive outcome (A : Type) : Type :=
| Return (a : A)
| ZeroDivisionError.
Arguments Return {A} a.
Arguments ZeroDivisionError {A}.

(** One value of the dict [get_difficulty_stats] builds per level. *)
Record Stats : Type := {
  attempts : Z;
  accuracy : float;
  avg_time : float
}.

(** [PerformanceTracker.__init__]; [now] is the reading of
    [datetime.now()]. *)
Definition __init__ (user_name : string) (now : datetime)
    : PerformanceTracker :=
  {| user_name := user_name; records := []; session_start := now |}.

(** [PerformanceTracker.log_attempt]; [now] is the reading of
    [datetime.now()] that the new record takes as its timestamp. *)
Definition log_attempt (self : PerformanceTracker) (puzzle_id : Z)
    (difficulty : string) (correct : bool) (time_taken : float)
    (user_answer correct_answer : Z) (now : datetime) : PerformanceTracker :=
  {| user_name := user_name self;
     records := records self ++
                [ {| puzzle_id := puzzle_id; difficulty := difficulty;
                     correct := correct; time_taken := time_taken;
                     user_answer := user_answer;
                     correct_answer := correct_answer;
                     timestamp := now |} ];
     session_start := session_start self |}.

(** [self.records[-recent_n:] if recent_n else self.records]: [None] and 0
    are both falsy. *)
Definition recent_records (self : PerformanceTracker) (recent_n : option Z)
    : list PerformanceRecord :=
  match recent_n with
  | None => records self
  | Some n => if n =? 0 then records self else slice_from (records self) (- n)
  end.

(** [sum(1 for r in records if r.correct)]. *)
Definition correct_count (rs : list PerformanceRecord) : Z :=
  fold_left (fun acc r => if correct r then acc + 1 else acc) rs 0.

(** [(correct_count / len(records)) * 100]; the division of two ints raises
    on a zero divisor. *)
Definition percentage (rs : list PerformanceRecord) : outcome float :=
  if len rs =? 0 then ZeroDivisionError
  else Return (PrimFloat.mul (true_div (correct_count rs) (len rs)) 100%float).

(** [PerformanceTracker.get_accuracy]. *)
Definition get_accuracy (self : PerformanceTracker) (recent_n : option Z)
    : outcome float :=
  match records self with
  | [] => Return 0%float
  | _ :: _ => percentage (recent_records self recent_n)
  end.

(** [PerformanceTracker.get_performance_trend]. *)
Definition get_performance_trend (self : PerformanceTracker) (window_size : Z)
    : list bool :=
  map correct (slice_from (records self) (- window_size)).

Section FloatSum.

(** The builtin [sum] applied to floats.  How it rounds depends on the
    interpreter (from version 3.12 it compensates the rounding errors), so
    it is left open here; nothing below depends on its value. *)
Variable fsum : list float -> float.

(** [sum(r.time_taken for r in records) / len(records)]. *)
Definition mean_time (rs : list PerformanceRecord) : outcome float :=
  if len rs =? 0 then ZeroDivisionError
  else Return (PrimFloat.div (fsum (map time_taken rs)) (float_of_int (len rs))).

(** [PerformanceTracker.get_average_time]. *)
Definition get_average_time (self : PerformanceTracker) (recent_n : option Z)
    : outcome float :=
  match records self with
  | [] => Return 0%float
  | _ :: _ => mean_time (recent_records self recent_n)
  end.

(** The body of the loop of [get_difficulty_stats] for one level: the
    records of that level and, when there are any, their statistics. *)
Definition records_of (self : PerformanceTracker) (d : string)
    : list PerformanceRecord :=
  List.filter (fun r => String.eqb (difficulty r) d) (records self).

Definition stats_of (rs : list PerformanceRecord) : Stats :=
  {| attempts := len rs;
     accuracy := PrimFloat.mul (true_div (correct_count rs) (len rs)) 100%float;
     avg_time := PrimFloat.div (fsum (map time_taken rs))
                               (float_of_int (len rs)) |}.

(** [PerformanceTracker.get_difficulty_stats]. *)
Definition get_difficulty_stats (self : PerformanceTracker)
    : gmap string Stats :=
  fold_left
    (fun stats d =>
       match records_of self d with
       | [] => stats
       | rs => <[d := stats_of rs]> stats
       end)
    ["EASY"%string; "MEDIUM"%string; "HARD"%string] ∅.

End FloatSum.

(** The attempts a stats dict reports for a level, 0 when the level has no
    key. *)
Definition attempts_in (stats : gmap string Stats) (d : string) : Z :=
  match stats !! d with
  | Some st => attempts st
  | None => 0
  end.

End Tracker.


(** ** The puzzle generator ([src/puzzle_generator.py]) *)
Module Puzzle.

(** Enum [DifficultyLevel]. *)
Inductive DifficultyLevel : Type := EASY | MEDIUM | HARD.

(** The value of a member. *)
Definition value (d : DifficultyLevel) : Z :=
  match d with EASY => 1 | MEDIUM => 2 | HARD => 3 end.

(** [DifficultyLevel[name]], the lookup of a member by its name, which
    raises [KeyError] for any other string. *)
Definition by_name (name : string) : result DifficultyLevel :=
  if String.eqb name "EASY" then Ok EASY
  else if String.eqb name "MEDIUM" then Ok MEDIUM
  else if String.eqb name "HARD" then Ok HARD
  else Raise (KeyError (KStr name)).

(** Dataclass [MathPuzzle]. *)
Record MathPuzzle : Type := {
  operand1 : Z;
  operand2 : Z;
  operation : string;
  correct_answer : Z;
  difficulty : DifficultyLevel
}.

(** One value of [DIFFICULTY_CONFIG]. *)
Record LevelConfig : Type := {
  operand_range : Z * Z;
  operations : list string;
  allow_decimals : bool
}.

Definition OPERATIONS : list string :=
  ["+"%string; "-"%string; "*"%string; "/"%string].

(** [DIFFICULTY_CONFIG], a dict with one key per member of the enum. *)
Definition DIFFICULTY_CONFIG (d : DifficultyLevel) : LevelConfig :=
  match d with
  | EASY => {| operand_range := (1, 10);
               operations := ["+"%string; "-"%string];
               allow_decimals := false |}
  | MEDIUM => {| operand_range := (5, 50);
                 operations := ["+"%string; "-"%string; "*"%string];
                 allow_decimals := false |}
  | HARD => {| operand_range := (10, 100);
               operations := ["+"%string; "-"%string; "*"%string; "/"%string];
               allow_decimals := true |}
  end.

(** What the module [random] hands to one call of [generate_puzzle], in the
    order of the calls: two [randint], one [choice] and, in the division
    branch only, one more [randint]. *)
Record Draws : Type := {
  randint1 : Z;
  randint2 : Z;
  choice : string;
  randint3 : Z
}.

(** What [random] guarantees about these values: [randint(a, b)] lies in
    [a..b] and [choice(seq)] is an item of [seq]. *)
Definition draws_in_range (d : DifficultyLevel) (r : Draws) : Prop :=
  let '(min_op, max_op) := operand_range (DIFFICULTY_CONFIG d) in
  min_op <= randint1 r <= max_op
  /\ Z.max 1 (min_op / 2) <= randint2 r <= max_op
  /\ In (choice r) (operations (DIFFICULTY_CONFIG d))
  /\ 2 <= randint3 r <= 5.

(** A generated puzzle, or the [UnboundLocalError] of reading
    [correct_answer] when no branch of the [if] chain has assigned it. *)
Inductive outcome (A : Type) : Type :=
| Return (a : A)
| UnboundLocalError.
Arguments Return {A} a.
Arguments UnboundLocalError {A}.

(** [PuzzleGenerator.generate_puzzle].  [//] is the floor division, which
    is [Z.div]. *)
Definition generate_puzzle (difficulty : DifficultyLevel) (r : Draws)
    : outcome MathPuzzle :=
  let config := DIFFICULTY_CONFIG difficulty in
  let '(min_op, max_op) := operand_range config in
  let operand1 := randint1 r in
  let operand2 := randint2 r in
  let operation := choice r in
  let puzzle operand2 correct_answer :=
    Return {| operand1 := operand1; operand2 := operand2;
              operation := operation; correct_answer := correct_answer;
              difficulty := difficulty |} in
  if String.eqb operation "+" then puzzle operand2 (operand1 + operand2)
  else if String.eqb operation "-" then puzzle operand2 (operand1 - operand2)
  else if String.eqb operation "*" then puzzle operand2 (operand1 * operand2)
  else if String.eqb operation "/" then
    let operand2 := Z.max 1 (operand1 / randint3 r) in
    puzzle operand2 (operand1 / operand2)
  else UnboundLocalError.

(** [PuzzleGenerator.generate_batch]: one call of [generate_puzzle] per item
    of [range(count)], the i-th with the i-th draws; an exception of a call
    ends the comprehension. *)
Fixpoint generate_batch_from (difficulty : DifficultyLevel)
    (draws : nat -> Draws) (i n : nat) : outcome (list MathPuzzle) :=
  match n with
  | O => Return []
  | S n =>
    match generate_puzzle difficulty (draws i) with
    | UnboundLocalError => UnboundLocalError
    | Return p =>
      match generate_batch_from difficulty draws (S i) n with
      | UnboundLocalError => UnboundLocalError
      | Return ps => Return (p :: ps)
      end
    end
  end.

Definition generate_batch (difficulty : DifficultyLevel) (count : Z)
    (draws : nat -> Draws) : outcome (list MathPuzzle) :=
  generate_batch_from difficulty draws 0 (Z.to_nat count).

(** The value of the expression a puzzle displays, in integer arithmetic
    with the floor quotient. *)
Definition displayed_value (p : MathPuzzle) : option Z :=
  if String.eqb (operation p) "+" then Some (operand1 p + operand2 p)
  else if String.eqb (operation p) "-" then Some (operand1 p - operand2 p)
  else if String.eqb (operation p) "*" then Some (operand1 p * operand2 p)
  else if String.eqb (operation p) "/" then
    if operand2 p =? 0 then None else Some (operand1 p / operand2 p)
  else None.

(** The least and the greatest answer of a level. *)
Definition answer_bounds (d : DifficultyLevel) : Z * Z :=
  match d with
  | EASY => (-9, 20)
  | MEDIUM => (-45, 2500)
  | HARD => (-90, 10000)
  end.

End Puzzle.


(** ** The session loop ([src/main.py], [AdaptiveLearningApp.run])

    The console is the environment of the loop: what the learner types, how
    long that took and what [random] and the clock deliver arrive as the
    [Turn] of each round.  Printing is left out; an exception that the loop
    does not catch ends the program and is the [Crash] of the run. *)
Module Main.

(** What [input("Your answer: ")] does, sorted the way the loop treats it:
    a line that is empty once stripped, a line [int(...)] rejects, a number,
    the [KeyboardInterrupt] of Ctrl-C, or the [EOFError] of a closed
    input. *)
Inductive Reply : Type :=
| Blank
| NotANumber
| Number (user_answer : Z)
| Interrupt
| EndOfInput.

Record Turn : Type := {
  draws : Puzzle.DifficultyLevel -> Puzzle.Draws;
  reply : Reply;
  elapsed_time : float;
  now : Tracker.datetime
}.

(** The uncaught exceptions of the loop. *)
Inductive failure : Type :=
| Key (e : exn)
| Unbound
| ZeroDivision
| EOFError.

(** How a round ends: the loop goes on, the [except KeyboardInterrupt]
    clause leaves the loop, or the program dies. *)
Inductive round (A : Type) : Type :=
| Continue (a : A)
| Leave (a : A)
| Abort (f : failure).
Arguments Continue {A} a.
Arguments Leave {A} a.
Arguments Abort {A} f.

(** How the loop ends: the summary is reached, or the program has died. *)
Inductive run (A : Type) : Type :=
| Done (a : A)
| Crash (f : failure).
Arguments Done {A} a.
Arguments Crash {A} f.

(** The local variables of [run] that live across rounds. *)
Record Session : Type := {
  puzzle_count : Z;
  current_difficulty : string;
  tracker : Tracker.PerformanceTracker;
  adaptive_engine : AdaptiveEngine
}.

(** The menu: [difficulty_map = {'1': 'EASY', '2': 'MEDIUM', '3': 'HARD'}]. *)
Definition difficulty_map : gmap string string :=
  <["1"%string := "EASY"%string]>
    (<["2"%string := "MEDIUM"%string]> (<["3"%string := "HARD"%string]> ∅)).

(** The configuration the application builds. *)
Definition app_config : AdaptationConfig :=
  {| rule_based_thresholds := {| high := 75%float; low := 50%float |};
     lookback_window := 5;
     min_attempts_before_change := 2 |}.

Definition max_puzzles : Z := 10.

(** The state in which the loop is entered, for a menu entry that passes
    the test [choice in ['1', '2', '3']]; on any other entry the menu asks
    again and no session starts. *)
Definition start (user_name choice : string) (clock : Tracker.datetime)
    : option Session :=
  match difficulty_map !! choice with
  | None => None
  | Some current_difficulty =>
    Some {| puzzle_count := 0;
            current_difficulty := current_difficulty;
            tracker := Tracker.__init__ user_name clock;
            adaptive_engine := fresh app_config |}
  end.

(** One round of the [while] loop. *)
Definition loop_body (s : Session) (t : Turn) : round Session :=
  match Puzzle.by_name (current_difficulty s) with
  | Raise e => Abort (Key e)
  | Ok difficulty_enum =>
    match Puzzle.generate_puzzle difficulty_enum (draws t difficulty_enum) with
    | Puzzle.UnboundLocalError => Abort Unbound
    | Puzzle.Return puzzle =>
      let puzzle_count := puzzle_count s + 1 in
      let skipped :=
        {| puzzle_count := puzzle_count;
           current_difficulty := current_difficulty s;
           tracker := tracker s;
           adaptive_engine := adaptive_engine s |} in
      match reply t with
      | Blank | NotANumber => Continue skipped
      | Interrupt => Leave skipped
      | EndOfInput => Abort EOFError
      | Number user_answer =>
        let is_correct := user_answer =? Puzzle.correct_answer puzzle in
        let tracker :=
          Tracker.log_attempt (tracker s) puzzle_count (current_difficulty s)
            is_correct (elapsed_time t) user_answer
            (Puzzle.correct_answer puzzle) (now t) in
        let trend := Tracker.get_performance_trend tracker 5 in
        let times :=
          map Tracker.time_taken (slice_from (Tracker.records tracker) (- 5)) in
        match get_next_difficulty (adaptive_engine s) (current_difficulty s)
                trend times with
        | (_, Raise e) => Abort (Key e)
        | (engine, Ok new_difficulty) =>
          match Tracker.get_accuracy tracker (Some 5) with
          | Tracker.ZeroDivisionError => Abort ZeroDivision
          | Tracker.Return _ =>
            Continue
                 {| puzzle_count := puzzle_count;
                    current_difficulty :=
                      if String.eqb new_difficulty (current_difficulty s)
                      then current_difficulty s else new_difficulty;
                    tracker := tracker;
                    adaptive_engine := engine |}
          end
        end
      end
    end
  end.

(** The [while puzzle_count < max_puzzles] loop inside its [try], over the
    turns the environment supplies, one per round.  A learner who walks away
    (no turn left) is an input that never ends; the loop is then observed
    where it waits. *)
Fixpoint run_loop (s : Session) (turns : list Turn) : run Session :=
  if puzzle_count s <? max_puzzles then
    match turns with
    | [] => Done s
    | t :: turns =>
      match loop_body s t with
      | Abort f => Crash f
      | Leave s' => Done s'
      | Continue s' => run_loop s' turns
      end
    end
  else Done s.

(** The environment keeps its promises: whatever level is asked for, the
    draws of the turn are in that level's ranges. *)
Definition fair (t : Turn) : Prop :=
  forall d, Puzzle.draws_in_range d (draws t d).

(** Each decision starts from the level the previous one arrived at. *)
Fixpoint chained (first : string) (h : list HistoryEntry) (final : string)
    : Prop :=
  match h with
  | [] => first = final
  | e :: h => from e = first /\ chained (to e) h final
  end.

(** What holds between the tracker, the engine and the loop variables at the
    top of every round of a session that started on [first]. *)
Record consistent (first : string) (s : Session) : Prop := {
  level_known : In (current_difficulty s) DIFFICULTY_LEVELS;
  engine_config : config (adaptive_engine s) = app_config;
  one_entry_per_record :
    map Tracker.difficulty (Tracker.records (tracker s))
    = map from (history (adaptive_engine s));
  counter_matches :
    attempt_count (adaptive_engine s) = len (history (adaptive_engine s));
  rounds_bound :
    len (Tracker.records (tracker s)) <= puzzle_count s <= max_puzzles;
  levels_chained :
    chained first (history (adaptive_engine s)) (current_difficulty s);
  floats_logged :
    Forall (fun e => exists a t, accuracy e = PyFloat a /\ avg_time e = PyFloat t)
           (history (adaptive_engine s))
}.

End Main.


(** ** The worked scenarios of the specification, run on the embedding *)

Example scenario1 :
  snd (get_next_difficulty (fresh default_config) "MEDIUM"
         [true; true; true; true] [5; 6; 4; 7]%float)
  = Ok "HARD"%string.
Proof. vm_compute. reflexivity. Qed.

Example scenario2 :
  snd (get_next_difficulty (fresh default_config) "MEDIUM"
         [false; false; false; true] [25; 22; 21; 8]%float)
  = Ok "EASY"%string.
Proof. vm_compute. reflexivity. Qed.

Example scenario3 :
  snd (get_next_difficulty (fresh default_config) "EASY"
         [true; true; false] [9; 11; 10]%float)
  = Ok "MEDIUM"%string.
Proof. vm_compute. reflexivity. Qed.

Example scenario4 :
  snd (get_next_difficulty (fresh default_config) "HARD"
         [true; true; true] [3; 3; 3]%float)
  = Ok "HARD"%string.
Proof. vm_compute. reflexivity. Qed.

Example scenario5 :
  get_next_difficulty (fresh default_config) "MEDIUM" [] []
  = ({| config := default_config; attempt_count := 1;
        history := [ {| attempt := 1; from := "MEDIUM"; to := "MEDIUM";
                        accuracy := PyInt 0; avg_time := PyInt 0 |} ] |},
     Ok "MEDIUM"%string).
Proof. vm_compute. reflexivity. Qed.

(** An unknown name on the adaptation path: the counter has moved, nothing
    was appended, and the subscript's [KeyError] propagates. *)
Example unknown_name_raises :
  get_next_difficulty (fresh default_config) "EXPERT"
    [true; true; true] [3; 3; 3]%float
  = ({| config := default_config; attempt_count := 1; history := [] |},
     Raise (KeyError (KStr "EXPERT"))).
Proof. vm_compute. reflexivity. Qed.

(** ** Counting, levels and the two dictionaries *)

Lemma py_sum_from (l : list bool) (a : Z) :
  fold_left (fun acc b => acc + Z.b2z b) l a
  = a + Z.of_nat (count_occ Bool.bool_dec l true).
Proof.
  revert a; induction l as [|b l IH]; intros a; simpl.
  - lia.
  - rewrite IH. destruct b; cbn; lia.
Qed.

Lemma py_sum_count (l : list bool) :
  py_sum l = Z.of_nat (count_occ Bool.bool_dec l true).
Proof. unfold py_sum. rewrite py_sum_from. lia. Qed.

Lemma accuracy_pct_spec (l : list bool) : accuracy_pct l = Spec.accuracy l.
Proof.
  unfold accuracy_pct, Spec.accuracy, true_div, len.
  now rewrite py_sum_count.
Qed.

Lemma decision_avg_time_spec (l : list float) :
  decision_avg_time l = Spec.avg_time l.
Proof. now destruct l. Qed.

Lemma logged_accuracy_spec (l : list bool) :
  logged_accuracy l = Spec.stored_accuracy l.
Proof. destruct l; simpl; [reflexivity|]. now rewrite accuracy_pct_spec. Qed.

Lemma logged_avg_time_spec (l : list float) :
  logged_avg_time l = Spec.stored_avg_time l.
Proof. now destruct l. Qed.

Lemma next_level_tiers (t : Thresholds) (level : Z) (acc avg : float) :
  next_level t level acc avg = Spec.tier_level (high t) (low t) level acc avg.
Proof.
  unfold next_level, Spec.tier_level, Spec.tier_A, Spec.tier_B, Spec.tier_C.
  destruct (fge acc (high t) && flt avg 10%float); [reflexivity|].
  destruct (fle acc (low t) || fgt avg 20%float); reflexivity.
Qed.

Ltac split_cascade :=
  repeat match goal with
         | |- context [if ?c then _ else _] => destruct c
         end.

Lemma next_level_range (t : Thresholds) (level : Z) (acc avg : float) :
  0 <= level <= 2 -> 0 <= next_level t level acc avg <= 2.
Proof. intros Hl. unfold next_level. split_cascade; lia. Qed.

(** Without times the average is infinite: tier A is closed and tier B
    fires, whatever the accuracy and the thresholds are. *)
Lemma next_level_no_times (t : Thresholds) (level : Z) (acc : float) :
  next_level t level acc (decision_avg_time []) = Z.max (level - 1) 0.
Proof.
  unfold next_level, decision_avg_time.
  replace (flt infinity 10%float) with false by reflexivity.
  replace (fgt infinity 20%float) with true by reflexivity.
  now rewrite andb_false_r, orb_true_r.
Qed.

(** The cascade moves by at most one step. *)
Lemma next_level_step (t : Thresholds) (level : Z) (acc avg : float) :
  0 <= level <= 2 -> level - 1 <= next_level t level acc avg <= level + 1.
Proof. intros Hl. unfold next_level. split_cascade; lia. Qed.

Lemma levels_valid (s : string) :
  In s DIFFICULTY_LEVELS -> exists d, s = Spec.name d.
Proof.
  intros [H | [H | [H | []]]]; subst s.
  - now exists Spec.EASY.
  - now exists Spec.MEDIUM.
  - now exists Spec.HARD.
Qed.

Lemma name_in_levels (d : Spec.DifficultyLevel) :
  In (Spec.name d) DIFFICULTY_LEVELS.
Proof. destruct d; simpl; tauto. Qed.

Lemma rank_range (d : Spec.DifficultyLevel) : 0 <= Spec.rank d <= 2.
Proof. destruct d; simpl; lia. Qed.

Lemma name_inj (d1 d2 : Spec.DifficultyLevel) :
  Spec.name d1 = Spec.name d2 -> d1 = d2.
Proof. destruct d1, d2; simpl; intros H; congruence. Qed.

Lemma lookup_name (d : Spec.DifficultyLevel) :
  DIFFICULTY_MAP !! Spec.name d = Some (Spec.rank d).
Proof. destruct d; vm_compute; reflexivity. Qed.

Lemma getitem_name (d : Spec.DifficultyLevel) :
  getitem_str DIFFICULTY_MAP (Spec.name d) = Ok (Spec.rank d).
Proof. unfold getitem_str. now rewrite lookup_name. Qed.

Lemma getitem_unknown (s : string) :
  ~ In s DIFFICULTY_LEVELS ->
  getitem_str DIFFICULTY_MAP s = Raise (KeyError (KStr s)).
Proof.
  intros Hs. unfold getitem_str, DIFFICULTY_MAP.
  rewrite !lookup_insert_ne, lookup_empty; [reflexivity| | |];
    intros E; apply Hs; rewrite <- E; simpl; tauto.
Qed.

Lemma getitem_reverse (z : Z) :
  0 <= z <= 2 ->
  exists d, getitem_int REVERSE_MAP z = Ok (Spec.name d) /\ Spec.rank d = z.
Proof.
  intros Hz.
  assert (z = 0 \/ z = 1 \/ z = 2) as [-> | [-> | ->]] by lia.
  - exists Spec.EASY. split; [vm_compute|]; reflexivity.
  - exists Spec.MEDIUM. split; [vm_compute|]; reflexivity.
  - exists Spec.HARD. split; [vm_compute|]; reflexivity.
Qed.

(** A configuration that keeps the invariant never lets an empty window
    through the length test. *)
Lemma valid_config_gate (c : AdaptationConfig) (l : list bool) :
  Spec.valid_config c = true ->
  min_attempts_before_change c <= len l -> l <> [].
Proof.
  unfold Spec.valid_config. rewrite !andb_true_iff.
  intros [_ Hmin%Z.leb_le] Hlen ->. unfold len in Hlen. simpl in Hlen. lia.
Qed.

Create HintDb engine.
#[local] Hint Resolve rank_range next_level_range name_in_levels lookup_name
  : engine.

(** ** The rule, branch by branch *)

Section Rule.

Variable self : AdaptiveEngine.
Variable recent_times : list float.

(** The two early returns, for any string. *)
Lemma adapt_rule_gate (cur : string) (perf : list bool) :
  perf = [] \/ len perf < min_attempts_before_change (config self) ->
  _adapt_rule_based self cur perf recent_times = Ok cur.
Proof.
  intros H. unfold _adapt_rule_based.
  destruct perf as [|b perf]; [reflexivity|].
  destruct H as [H|H]; [discriminate|].
  destruct (Z.ltb_spec (len (b :: perf))
              (min_attempts_before_change (config self))); [reflexivity|lia].
Qed.

(** The adaptation path, for a known level. *)
Lemma adapt_rule_path (d : Spec.DifficultyLevel) (perf : list bool) :
  perf <> [] ->
  min_attempts_before_change (config self) <= len perf ->
  exists d',
    _adapt_rule_based self (Spec.name d) perf recent_times = Ok (Spec.name d')
    /\ Spec.rank d'
       = next_level (rule_based_thresholds (config self)) (Spec.rank d)
           (accuracy_pct perf) (decision_avg_time recent_times).
Proof.
  intros Hne Hmin. unfold _adapt_rule_based.
  destruct perf as [|b perf]; [congruence|].
  destruct (Z.ltb_spec (len (b :: perf))
              (min_attempts_before_change (config self))) as [Hlt|_]; [lia|].
  cbv zeta. rewrite getitem_name. cbn [mbind result_bind].
  destruct (getitem_reverse
              (next_level (rule_based_thresholds (config self)) (Spec.rank d)
                 (accuracy_pct (b :: perf)) (decision_avg_time recent_times)))
    as [d' [Hd' Hr]]; [auto with engine|].
  exists d'. split; [exact Hd' | exact Hr].
Qed.

(** The adaptation path, for a name outside the levels. *)
Lemma adapt_rule_unknown (cur : string) (perf : list bool) :
  perf <> [] ->
  min_attempts_before_change (config self) <= len perf ->
  ~ In cur DIFFICULTY_LEVELS ->
  _adapt_rule_based self cur perf recent_times = Raise (KeyError (KStr cur)).
Proof.
  intros Hne Hmin Hout. unfold _adapt_rule_based.
  destruct perf as [|b perf]; [congruence|].
  destruct (Z.ltb_spec (len (b :: perf))
              (min_attempts_before_change (config self))) as [Hlt|_]; [lia|].
  cbv zeta. now rewrite (getitem_unknown cur Hout).
Qed.

(** On a known level the rule always returns a known level. *)
Lemma adapt_rule_total (d : Spec.DifficultyLevel) (perf : list bool) :
  exists d',
    _adapt_rule_based self (Spec.name d) perf recent_times = Ok (Spec.name d').
Proof.
  destruct perf as [|b perf].
  - exists d. reflexivity.
  - destruct (Z.lt_ge_cases (len (b :: perf))
                (min_attempts_before_change (config self))) as [Hlt|Hge].
    + exists d. apply adapt_rule_gate. now right.
    + destruct (adapt_rule_path d (b :: perf)) as [d' [H _]];
        [discriminate | lia | now exists d'].
Qed.

(** On the inputs of [in_domain] the rule returns. *)
Lemma adapt_rule_returns (cur : string) (perf : list bool) :
  in_domain self cur perf ->
  exists nd, _adapt_rule_based self cur perf recent_times = Ok nd.
Proof.
  intros [Hin | Hgate].
  - destruct (levels_valid cur Hin) as [d ->].
    destruct (adapt_rule_total d perf) as [d' H]. now exists (Spec.name d').
  - exists cur. now apply adapt_rule_gate.
Qed.

End Rule.

(** The rule reads the configuration only. *)
Lemma adapt_rule_config (s1 s2 : AdaptiveEngine) (cur : string)
    (perf : list bool) (times : list float) :
  config s1 = config s2 ->
  _adapt_rule_based s1 cur perf times = _adapt_rule_based s2 cur perf times.
Proof. intros H. unfold _adapt_rule_based. now rewrite H. Qed.

(** ** One call, by outcome of the rule *)

Section Call.

Variable self : AdaptiveEngine.
Variable cur : string.
Variable perf : list bool.
Variable times : list float.

Lemma get_next_difficulty_ok (nd : string) :
  _adapt_rule_based self cur perf times = Ok nd ->
  get_next_difficulty self cur perf times
  = (history_append (bump_attempt_count self)
       {| attempt := attempt_count self + 1;
          from := cur; to := nd;
          accuracy := logged_accuracy perf;
          avg_time := logged_avg_time times |},
     Ok nd).
Proof.
  intros H. unfold get_next_difficulty.
  rewrite (adapt_rule_config (bump_attempt_count self) self) by reflexivity.
  rewrite H. reflexivity.
Qed.

Lemma get_next_difficulty_raise (e : exn) :
  _adapt_rule_based self cur perf times = Raise e ->
  get_next_difficulty self cur perf times = (bump_attempt_count self, Raise e).
Proof.
  intros H. unfold get_next_difficulty.
  rewrite (adapt_rule_config (bump_attempt_count self) self) by reflexivity.
  rewrite H. reflexivity.
Qed.

End Call.

(** ** The decision rule against the tier algorithm *)

(** On a window that is not empty the rule follows the tiers, whatever the
    configuration is. *)
Lemma tiers_decide_on_window (self : AdaptiveEngine)
    (d : Spec.DifficultyLevel) (recent_correctness : list bool)
    (recent_times : list float) :
  recent_correctness <> [] ->
  tiers_decide self d recent_correctness recent_times.
Proof.
  intros Hne Hmin.
  destruct (adapt_rule_path self recent_times d recent_correctness Hne Hmin)
    as [d' [Hrule Hrank]].
  exists d'. split.
  - now rewrite (get_next_difficulty_ok _ _ _ _ _ Hrule).
  - rewrite Hrank.
    now rewrite next_level_tiers, accuracy_pct_spec, decision_avg_time_spec.
Qed.

(** Outside the invariant of a configuration, with
    [min_attempts_before_change] at 0, an empty window passes the length test
    but the rule has already returned on its emptiness guard, as the first
    step of the algorithm says: MEDIUM stays MEDIUM and no tier is tried. *)
Example ungated_empty_window_skips_tiers :
  Spec.valid_config ungated_config = false
  /\ snd (get_next_difficulty (fresh ungated_config) "MEDIUM" [] [])
     = Ok "MEDIUM"%string
  /\ ~ tiers_decide (fresh ungated_config) Spec.MEDIUM [] [].
Proof.
  split; [vm_compute; reflexivity|]. split; [vm_compute; reflexivity|].
  intros H. destruct H as [d' [Hres Hrank]].
  - vm_compute. discriminate.
  - assert (d' = Spec.MEDIUM) as ->.
    { destruct d'; vm_compute in Hres; congruence. }
    vm_compute in Hrank. discriminate.
Qed.

(** C1: for every config (a configuration of the data model: thresholds in
    0..100, low below high, at least one attempt before a change), every
    current difficulty in EASY, MEDIUM, HARD, every correctness sequence
    whose length is at least [min_attempts_before_change] and every time
    sequence, the call returns the difficulty whose rank the tier algorithm
    gives, with the tiers tried in the order A, B, C on
    accuracy = count of true / length x 100 and avg_time = mean of the times
    (positive infinity without times), and the comparisons strict or not as
    written. *)
Theorem C1_tier_algorithm (self : AdaptiveEngine) (d : Spec.DifficultyLevel)
    (recent_correctness : list bool) (recent_times : list float) :
  Spec.valid_config (config self) = true ->
  min_attempts_before_change (config self) <= len recent_correctness ->
  exists d',
    snd (get_next_difficulty self (Spec.name d) recent_correctness recent_times)
    = Ok (Spec.name d')
    /\ Spec.rank d'
       = Spec.tier_level (high (rule_based_thresholds (config self)))
           (low (rule_based_thresholds (config self)))
           (Spec.rank d) (Spec.accuracy recent_correctness)
           (Spec.avg_time recent_times).
Proof.
  intros Hvalid Hmin.
  apply (tiers_decide_on_window self d recent_correctness recent_times);
    [|exact Hmin].
  exact (valid_config_gate (config self) recent_correctness Hvalid Hmin).
Qed.

Lemma C1_tier_algorithm_witness :
  Spec.valid_config (config (fresh default_config)) = true
  /\ min_attempts_before_change (config (fresh default_config))
     <= len [true; true; false]
  /\ exists d',
       snd (get_next_difficulty (fresh default_config) (Spec.name Spec.EASY)
              [true; true; false] [9; 11; 10]%float)
       = Ok (Spec.name d')
       /\ Spec.rank d'
          = Spec.tier_level
              (high (rule_based_thresholds (config (fresh default_config))))
              (low (rule_based_thresholds (config (fresh default_config))))
              (Spec.rank Spec.EASY) (Spec.accuracy [true; true; false])
              (Spec.avg_time [9; 11; 10]%float).
Proof.
  split; [vm_compute; reflexivity|]. split; [vm_compute; discriminate|].
  apply (C1_tier_algorithm (fresh default_config) Spec.EASY
           [true; true; false] [9; 11; 10]%float).
  - vm_compute. reflexivity.
  - vm_compute. discriminate.
Defined.

(** ** Insufficient samples *)

(** C2: for every config, every current difficulty and every time sequence,
    a call with a non-empty correctness sequence shorter than
    [min_attempts_before_change] returns the current difficulty unchanged, and
    the history is the old history followed by one new entry, which carries
    the accuracy computed from the correctness sequence and the average time
    computed from the times (0 when none were supplied); the counter has
    grown by 1 and the configuration is untouched. *)
Theorem C2_short_window_unchanged (self : AdaptiveEngine) (cur : string)
    (recent_correctness : list bool) (recent_times : list float) :
  recent_correctness <> [] ->
  len recent_correctness < min_attempts_before_change (config self) ->
  exists e,
    snd (get_next_difficulty self cur recent_correctness recent_times) = Ok cur
    /\ get_adaptation_history
         (fst (get_next_difficulty self cur recent_correctness recent_times))
       = get_adaptation_history self ++ [e]
    /\ attempt_count
         (fst (get_next_difficulty self cur recent_correctness recent_times))
       = attempt_count self + 1
    /\ config
         (fst (get_next_difficulty self cur recent_correctness recent_times))
       = config self
    /\ attempt e = attempt_count self + 1
    /\ from e = cur /\ to e = cur
    /\ accuracy e = PyFloat (Spec.accuracy recent_correctness)
    /\ avg_time e = Spec.stored_avg_time recent_times.
Proof.
  intros Hne Hlt.
  rewrite (get_next_difficulty_ok self cur recent_correctness recent_times cur)
    by (apply adapt_rule_gate; now right).
  eexists.
  cbn [fst snd get_adaptation_history history_append bump_attempt_count
       history attempt_count config].
  split; [reflexivity|]. split; [reflexivity|].
  cbn [attempt from to accuracy avg_time].
  repeat (split; [reflexivity|]). split.
  - rewrite logged_accuracy_spec.
    destruct recent_correctness; [congruence | reflexivity].
  - apply logged_avg_time_spec.
Qed.

Lemma C2_short_window_unchanged_witness :
  [false; true] <> []
  /\ len [false; true] < min_attempts_before_change (config (fresh default_config))
  /\ exists e,
       snd (get_next_difficulty (fresh default_config) "HARD" [false; true]
              [30]%float) = Ok "HARD"%string
       /\ get_adaptation_history
            (fst (get_next_difficulty (fresh default_config) "HARD"
                    [false; true] [30]%float))
          = get_adaptation_history (fresh default_config) ++ [e]
       /\ attempt_count
            (fst (get_next_difficulty (fresh default_config) "HARD"
                    [false; true] [30]%float))
          = attempt_count (fresh default_config) + 1
       /\ config
            (fst (get_next_difficulty (fresh default_config) "HARD"
                    [false; true] [30]%float))
          = config (fresh default_config)
       /\ attempt e = attempt_count (fresh default_config) + 1
       /\ from e = "HARD"%string /\ to e = "HARD"%string
       /\ accuracy e = PyFloat (Spec.accuracy [false; true])
       /\ avg_time e = Spec.stored_avg_time [30]%float.
Proof.
  split; [discriminate|]. split; [vm_compute; reflexivity|].
  apply (C2_short_window_unchanged (fresh default_config) "HARD"
           [false; true] [30]%float).
  - discriminate.
  - vm_compute. reflexivity.
Defined.

(** ** Bookkeeping of a call *)

(** C3: every call on one of the engine's difficulty levels (and every call
    on a window the rule does not adapt on) returns, bumps the attempt
    counter by exactly 1 and appends exactly one entry, whose sequence number
    is the new counter, whose [from] is the input difficulty and whose [to]
    is the returned difficulty, whatever branch the rule takes. *)
Theorem C3_counter_and_history (self : AdaptiveEngine) (cur : string)
    (recent_correctness : list bool) (recent_times : list float) :
  in_domain self cur recent_correctness ->
  exists self' nd e,
    get_next_difficulty self cur recent_correctness recent_times
    = (self', Ok nd)
    /\ attempt_count self' = attempt_count self + 1
    /\ get_adaptation_history self' = get_adaptation_history self ++ [e]
    /\ length (get_adaptation_history self')
       = S (length (get_adaptation_history self))
    /\ attempt e = attempt_count self'
    /\ from e = cur
    /\ to e = nd.
Proof.
  intros Hdom.
  destruct (adapt_rule_returns self recent_times cur recent_correctness Hdom)
    as [nd Hrule].
  rewrite (get_next_difficulty_ok _ _ _ _ _ Hrule).
  eexists. exists nd. eexists. split; [reflexivity|].
  cbn [history_append bump_attempt_count get_adaptation_history
       attempt_count history attempt from to].
  repeat split. unfold get_adaptation_history. rewrite length_app. simpl. lia.
Qed.

Lemma C3_counter_and_history_witness :
  exists self' nd e,
    get_next_difficulty (fresh default_config) "MEDIUM"
      [false; false; false; true] [25; 22; 21; 8]%float
    = (self', Ok nd)
    /\ attempt_count self' = attempt_count (fresh default_config) + 1
    /\ get_adaptation_history self'
       = get_adaptation_history (fresh default_config) ++ [e]
    /\ length (get_adaptation_history self')
       = S (length (get_adaptation_history (fresh default_config)))
    /\ attempt e = attempt_count self'
    /\ from e = "MEDIUM"%string
    /\ to e = nd.
Proof.
  apply (C3_counter_and_history (fresh default_config) "MEDIUM"
           [false; false; false; true] [25; 22; 21; 8]%float).
  left. simpl. tauto.
Defined.

(** ** Empty inputs *)

(** The two conditional expressions of the logged entry are independent:
    with no correctness flags but one time of 5 seconds the entry stores an
    average of 5. *)
Lemma C4_times_counterexample :
  ~ empty_window_logs_zeros (fresh default_config) "EASY" [5%float].
Proof.
  intros (_ & _ & e & Hhist & _ & Hzero).
  vm_compute in Hhist. injection Hhist as <-.
  vm_compute in Hzero. discriminate.
Qed.

(** C4 (amended): with an empty correctness sequence the call returns the
    current difficulty unchanged, still bumps the attempt counter, and
    appends an entry whose accuracy is 0 and whose avg_time is the mean of
    the supplied times, 0 only when the time sequence is empty as well. *)
Theorem C4_empty_window (self : AdaptiveEngine) (cur : string)
    (recent_times : list float) :
  snd (get_next_difficulty self cur [] recent_times) = Ok cur
  /\ attempt_count (fst (get_next_difficulty self cur [] recent_times))
     = attempt_count self + 1
  /\ exists e,
       history (fst (get_next_difficulty self cur [] recent_times))
       = history self ++ [e]
       /\ accuracy e = PyInt 0
       /\ avg_time e = Spec.stored_avg_time recent_times.
Proof.
  rewrite (get_next_difficulty_ok self cur [] recent_times cur)
    by (apply adapt_rule_gate; now left).
  cbn [fst snd history_append bump_attempt_count attempt_count history].
  split; [reflexivity|]. split; [reflexivity|].
  eexists. split; [reflexivity|]. cbn [accuracy avg_time].
  split; [reflexivity|]. apply logged_avg_time_spec.
Qed.

(** Without times the level goes one step down on every window that is
    not empty, whatever the configuration is. *)
Lemma no_times_steps_down_on_window (self : AdaptiveEngine)
    (d : Spec.DifficultyLevel) (recent_correctness : list bool) :
  recent_correctness <> [] ->
  no_times_steps_down self d recent_correctness.
Proof.
  intros Hne Hmin.
  destruct (adapt_rule_path self [] d recent_correctness Hne Hmin)
    as [d' [Hrule Hrank]].
  exists d'. split.
  - now rewrite (get_next_difficulty_ok _ _ _ _ _ Hrule).
  - rewrite Hrank. apply next_level_no_times.
Qed.

(** Outside the invariant of a configuration, with
    [min_attempts_before_change] at 0 and both sequences empty, the emptiness
    guard answers first: MEDIUM stays MEDIUM and no average is taken. *)
Example ungated_empty_window_keeps_level :
  Spec.valid_config ungated_config = false
  /\ ~ no_times_steps_down (fresh ungated_config) Spec.MEDIUM [].
Proof.
  split; [vm_compute; reflexivity|].
  intros H. destruct H as [d' [Hres Hrank]].
  - vm_compute. discriminate.
  - assert (d' = Spec.MEDIUM) as ->.
    { destruct d'; vm_compute in Hres; congruence. }
    vm_compute in Hrank. discriminate.
Qed.

(** C5: for every config (a configuration of the data model), every current
    difficulty and every correctness sequence with at least
    [min_attempts_before_change] entries, a call with an empty time sequence
    takes the average time to be positive infinity and so the weak branch:
    it returns the level one step down, clamped at EASY, however high the
    accuracy is. *)
Theorem C5_no_times_steps_down (self : AdaptiveEngine)
    (d : Spec.DifficultyLevel) (recent_correctness : list bool) :
  Spec.valid_config (config self) = true ->
  min_attempts_before_change (config self) <= len recent_correctness ->
  decision_avg_time [] = infinity
  /\ exists d',
       snd (get_next_difficulty self (Spec.name d) recent_correctness [])
       = Ok (Spec.name d')
       /\ Spec.rank d' = Z.max (Spec.rank d - 1) 0.
Proof.
  intros Hvalid Hmin. split; [reflexivity|].
  apply (no_times_steps_down_on_window self d recent_correctness);
    [|exact Hmin].
  exact (valid_config_gate (config self) recent_correctness Hvalid Hmin).
Qed.

Lemma C5_no_times_steps_down_witness :
  Spec.valid_config (config (fresh default_config)) = true
  /\ min_attempts_before_change (config (fresh default_config))
     <= len [true; true; true]
  /\ decision_avg_time [] = infinity
  /\ exists d',
       snd (get_next_difficulty (fresh default_config) (Spec.name Spec.HARD)
              [true; true; true] [])
       = Ok (Spec.name d')
       /\ Spec.rank d' = Z.max (Spec.rank Spec.HARD - 1) 0.
Proof.
  split; [vm_compute; reflexivity|]. split; [vm_compute; discriminate|].
  apply (C5_no_times_steps_down (fresh default_config) Spec.HARD
           [true; true; true]).
  - vm_compute. reflexivity.
  - vm_compute. discriminate.
Defined.

(** ** Clamping *)

(** C6: on every call with one of the engine's difficulty levels the computed
    next level lies in 0..2 and the returned name is again one of EASY,
    MEDIUM, HARD; from EASY the result is never lower, from HARD never
    higher. *)
Theorem C6_levels_clamped (self : AdaptiveEngine) (cur : string)
    (recent_correctness : list bool) (recent_times : list float) :
  In cur DIFFICULTY_LEVELS ->
  exists level nd nl,
    DIFFICULTY_MAP !! cur = Some level
    /\ 0 <= next_level (rule_based_thresholds (config self)) level
              (accuracy_pct recent_correctness)
              (decision_avg_time recent_times) <= 2
    /\ snd (get_next_difficulty self cur recent_correctness recent_times)
       = Ok nd
    /\ In nd DIFFICULTY_LEVELS
    /\ DIFFICULTY_MAP !! nd = Some nl
    /\ 0 <= nl <= 2
    /\ (cur = "EASY"%string -> level <= nl)
    /\ (cur = "HARD"%string -> nl <= level).
Proof.
  intros Hcur. destruct (levels_valid cur Hcur) as [d ->].
  destruct (adapt_rule_total self recent_times d recent_correctness)
    as [d' Hrule].
  exists (Spec.rank d), (Spec.name d'), (Spec.rank d').
  rewrite (get_next_difficulty_ok _ _ _ _ _ Hrule).
  repeat (split; [solve [auto with engine]|]).
  pose proof (rank_range d'). split; intros E.
  - apply (name_inj d Spec.EASY) in E. subst d. simpl. lia.
  - apply (name_inj d Spec.HARD) in E. subst d. simpl. lia.
Qed.

Lemma C6_levels_clamped_witness :
  exists level nd nl,
    DIFFICULTY_MAP !! "HARD"%string = Some level
    /\ 0 <= next_level (rule_based_thresholds default_config) level
              (accuracy_pct [true; true; true])
              (decision_avg_time [3; 3; 3]%float) <= 2
    /\ snd (get_next_difficulty (fresh default_config) "HARD"
              [true; true; true] [3; 3; 3]%float) = Ok nd
    /\ In nd DIFFICULTY_LEVELS
    /\ DIFFICULTY_MAP !! nd = Some nl
    /\ 0 <= nl <= 2
    /\ ("HARD"%string = "EASY"%string -> level <= nl)
    /\ ("HARD"%string = "HARD"%string -> nl <= level).
Proof.
  apply (C6_levels_clamped (fresh default_config) "HARD"
           [true; true; true] [3; 3; 3]%float).
  simpl. tauto.
Defined.

(** ** Determinism *)

(** C7: two calls with the same config, current difficulty, correctness
    sequence and time sequence give the same outcome and append entries that
    agree on everything but the sequence number, whatever the counters and
    histories of the two engines are. *)
Theorem C7_deterministic (s1 s2 : AdaptiveEngine) (cur : string)
    (recent_correctness : list bool) (recent_times : list float) :
  config s1 = config s2 ->
  snd (get_next_difficulty s1 cur recent_correctness recent_times)
  = snd (get_next_difficulty s2 cur recent_correctness recent_times)
  /\ map computed_fields
       (appended s1 (fst (get_next_difficulty s1 cur recent_correctness
                            recent_times)))
     = map computed_fields
         (appended s2 (fst (get_next_difficulty s2 cur recent_correctness
                              recent_times))).
Proof.
  intros Hcfg.
  pose proof (adapt_rule_config s1 s2 cur recent_correctness recent_times Hcfg)
    as Hsame.
  destruct (_adapt_rule_based s2 cur recent_correctness recent_times)
    as [nd|e] eqn:Hrule.
  - rewrite (get_next_difficulty_ok _ _ _ _ _ Hsame),
            (get_next_difficulty_ok _ _ _ _ _ Hrule).
    split; [reflexivity|]. unfold appended. cbn [fst history_append history
      bump_attempt_count]. now rewrite !drop_app_length.
  - rewrite (get_next_difficulty_raise _ _ _ _ _ Hsame),
            (get_next_difficulty_raise _ _ _ _ _ Hrule).
    split; [reflexivity|]. unfold appended. cbn [fst bump_attempt_count history].
    now rewrite !drop_all.
Qed.

Lemma C7_deterministic_witness :
  snd (get_next_difficulty (fresh default_config) "EASY"
         [true; true; false] [9; 11; 10]%float)
  = snd (get_next_difficulty
           (fst (get_next_difficulty (fresh default_config) "HARD" [] []))
           "EASY" [true; true; false] [9; 11; 10]%float)
  /\ map computed_fields
       (appended (fresh default_config)
          (fst (get_next_difficulty (fresh default_config) "EASY"
                  [true; true; false] [9; 11; 10]%float)))
     = map computed_fields
         (appended
            (fst (get_next_difficulty (fresh default_config) "HARD" [] []))
            (fst (get_next_difficulty
                    (fst (get_next_difficulty (fresh default_config) "HARD" [] []))
                    "EASY" [true; true; false] [9; 11; 10]%float))).
Proof.
  apply (C7_deterministic (fresh default_config)
           (fst (get_next_difficulty (fresh default_config) "HARD" [] []))
           "EASY" [true; true; false] [9; 11; 10]%float).
  reflexivity.
Defined.

(** ** Reset *)

(** C8: after [reset_history], in any engine state, the history accessor
    returns the empty list and the attempt counter is 0, and a second reset
    changes nothing. *)
Theorem C8_reset (self : AdaptiveEngine) :
  get_adaptation_history (reset_history self) = []
  /\ attempt_count (reset_history self) = 0
  /\ reset_history (reset_history self) = reset_history self.
Proof. repeat split. Qed.

(** ** Construction *)

(** The constructor stores a configuration that breaks every part of the
    invariant and returns normally. *)
Lemma C9_no_validation_counterexample :
  ~ init_validates ill_formed_config.
Proof.
  intros [Hbad _]. destruct Hbad as [e He].
  - vm_compute. reflexivity.
  - discriminate He.
Qed.

(** C9 (amended): constructing the engine never fails and checks nothing:
    any config, well-formed or not, is stored as given (the default
    75 / 50 / 3 when none is passed), with the attempt counter at 0 and an
    empty history. *)
Theorem C9_init_accepts_any_config (c : option AdaptationConfig) :
  exists eng,
    __init__ c = Ok eng
    /\ config eng = default default_config c
    /\ attempt_count eng = 0
    /\ get_adaptation_history eng = [].
Proof.
  eexists. split; [reflexivity|]. destruct c; repeat split.
Qed.

(** ** Names outside the scale *)

(** C10: when the correctness sequence is empty or shorter than
    [min_attempts_before_change], the call returns the given name verbatim
    and does not raise, for any string at all; a raise can only come from the
    adaptation path, on a window of at least [min_attempts_before_change]
    entries and a name outside the engine's levels. *)
Theorem C10_gate_skips_lookup (self : AdaptiveEngine) (cur : string)
    (recent_correctness : list bool) (recent_times : list float) :
  (recent_correctness = []
   \/ len recent_correctness < min_attempts_before_change (config self) ->
   snd (get_next_difficulty self cur recent_correctness recent_times) = Ok cur)
  /\ (forall e,
        snd (get_next_difficulty self cur recent_correctness recent_times)
        = Raise e ->
        recent_correctness <> []
        /\ min_attempts_before_change (config self) <= len recent_correctness
        /\ ~ In cur DIFFICULTY_LEVELS
        /\ e = KeyError (KStr cur)).
Proof.
  split.
  - intros Hgate.
    now rewrite (get_next_difficulty_ok self cur recent_correctness
                   recent_times cur (adapt_rule_gate _ _ _ _ Hgate)).
  - intros e Hraise.
    assert (Hout : ~ in_domain self cur recent_correctness).
    { intros Hdom.
      destruct (adapt_rule_returns self recent_times cur recent_correctness
                  Hdom) as [nd Hrule].
      rewrite (get_next_difficulty_ok _ _ _ _ _ Hrule) in Hraise.
      discriminate. }
    unfold in_domain in Hout.
    assert (Hne : recent_correctness <> []) by tauto.
    assert (Hmin : min_attempts_before_change (config self)
                   <= len recent_correctness) by lia.
    assert (Hcur : ~ In cur DIFFICULTY_LEVELS) by tauto.
    repeat (split; [assumption|]).
    rewrite (get_next_difficulty_raise _ _ _ _ _
               (adapt_rule_unknown self recent_times cur recent_correctness
                  Hne Hmin Hcur)) in Hraise.
    cbn [snd] in Hraise. congruence.
Qed.

Lemma C10_gate_skips_lookup_witness :
  snd (get_next_difficulty (fresh default_config) "EXPERT" [true; true]
         [4; 6]%float)
  = Ok "EXPERT"%string.
Proof.
  apply (proj1 (C10_gate_skips_lookup (fresh default_config) "EXPERT"
                  [true; true] [4; 6]%float)).
  right. vm_compute. reflexivity.
Defined.

(** * Further properties of the code

    ** Order of binary64 values *)

Ltac sf_cases :=
  repeat match goal with
         | s : bool |- _ => destruct s
         | |- context [Z.compare ?a ?b] => destruct (Z.compare_spec a b)
         | |- context [Pos.compare ?a ?b] => destruct (Pos.compare_spec a b)
         end.

Lemma SFltb_key (f1 f2 : spec_float) :
  SFltb f1 f2 = true
  <-> sf_is_nan f1 = false /\ sf_is_nan f2 = false
      /\ lex_lt (sf_key f1) (sf_key f2).
Proof.
  unfold SFltb, SFcompare.
  destruct f1 as [s1|s1| |s1 m1 e1], f2 as [s2|s2| |s2 m2 e2];
    cbv [sf_is_nan sf_key lex_lt];
    rewrite ?Pos.compare_cont_spec;
    sf_cases; cbn [CompOpp Pos.switch_Eq];
    (split; [intros; try discriminate; repeat split; lia
            | intros (N1 & N2 & HL); try discriminate; try reflexivity;
              exfalso; lia]).
Qed.

Lemma SFleb_key (f1 f2 : spec_float) :
  SFleb f1 f2 = true
  <-> sf_is_nan f1 = false /\ sf_is_nan f2 = false
      /\ lex_le (sf_key f1) (sf_key f2).
Proof.
  unfold SFleb, SFcompare.
  destruct f1 as [s1|s1| |s1 m1 e1], f2 as [s2|s2| |s2 m2 e2];
    cbv [sf_is_nan sf_key lex_le];
    rewrite ?Pos.compare_cont_spec;
    sf_cases; cbn [CompOpp Pos.switch_Eq];
    (split; [intros; try discriminate; repeat split; lia
            | intros (N1 & N2 & HL); try discriminate; try reflexivity;
              exfalso; lia]).
Qed.

Lemma flt_key (x y : float) :
  flt x y = true <-> ordered x /\ ordered y /\ lex_lt (key x) (key y).
Proof. unfold flt. rewrite FloatAxioms.ltb_spec. apply SFltb_key. Qed.

Lemma fle_key (x y : float) :
  fle x y = true <-> ordered x /\ ordered y /\ lex_le (key x) (key y).
Proof. unfold fle. rewrite FloatAxioms.leb_spec. apply SFleb_key. Qed.

Ltac by_keys :=
  rewrite ?flt_key, ?fle_key in *; unfold lex_lt, lex_le in *;
  repeat match goal with
         | |- context [key ?x] =>
           let a := fresh "a" in let b := fresh "b" in let c := fresh "c" in
           destruct (key x) as [[a b] c]
         | H : context [key ?x] |- _ =>
           let a := fresh "a" in let b := fresh "b" in let c := fresh "c" in
           destruct (key x) as [[a b] c]
         end;
  intuition lia.

Lemma flt_trans (x y z : float) :
  flt x y = true -> flt y z = true -> flt x z = true.
Proof. by_keys. Qed.

Lemma flt_fle_trans (x y z : float) :
  flt x y = true -> fle y z = true -> flt x z = true.
Proof. by_keys. Qed.

Lemma flt_fle (x y : float) : flt x y = true -> fle x y = true.
Proof. by_keys. Qed.

Lemma flt_asym (x y : float) : flt x y = true -> flt y x = false.
Proof.
  intros H. destruct (flt y x) eqn:E; [|reflexivity]. exfalso.
  revert H E. by_keys.
Qed.

(** The constants of the cascade, in their order. *)
Lemma flt_below_10_below_12 (x : float) :
  flt x 10%float = true -> flt x 12%float = true.
Proof. intros H. now apply flt_trans with 10%float. Qed.

Lemma fgt_above_20_above_18 (x : float) :
  fgt x 20%float = true -> fgt x 18%float = true.
Proof. unfold fgt. intros H. now apply flt_trans with 20%float. Qed.

Lemma fgt_above_20_not_below_10 (x : float) :
  fgt x 20%float = true -> flt x 10%float = false.
Proof.
  unfold fgt. intros H. destruct (flt x 10%float) eqn:E; [|reflexivity].
  pose proof (flt_trans _ _ _ H E) as Habs. vm_compute in Habs. discriminate.
Qed.

(** ** The rule, seen from its callers *)

(** Either gate answers with the level itself, or the cascade decides. *)
Lemma adapt_rule_cases (self : AdaptiveEngine) (d : Spec.DifficultyLevel)
    (perf : list bool) (times : list float) :
  exists d',
    _adapt_rule_based self (Spec.name d) perf times = Ok (Spec.name d')
    /\ ((d' = d
         /\ (perf = [] \/ len perf < min_attempts_before_change (config self)))
        \/ (perf <> []
            /\ min_attempts_before_change (config self) <= len perf
            /\ Spec.rank d'
               = next_level (rule_based_thresholds (config self)) (Spec.rank d)
                   (accuracy_pct perf) (decision_avg_time times))).
Proof.
  destruct perf as [|b perf].
  - exists d. split; [reflexivity|]. left. split; [reflexivity|now left].
  - destruct (Z.lt_ge_cases (len (b :: perf))
                (min_attempts_before_change (config self))) as [Hlt|Hge].
    + exists d. split; [apply adapt_rule_gate; now right|].
      left. split; [reflexivity|now right].
    + destruct (adapt_rule_path self times d (b :: perf)) as [d' [H Hr]];
        [discriminate | lia |].
      exists d'. split; [exact H|]. right.
      split; [discriminate|]. split; [lia|exact Hr].
Qed.

Lemma next_level_mono (t : Thresholds) (l1 l2 : Z) (acc avg : float) :
  l1 <= l2 -> next_level t l1 acc avg <= next_level t l2 acc avg.
Proof. intros Hl. unfold next_level. split_cascade; lia. Qed.

Lemma next_level_up (t : Thresholds) (level : Z) (acc avg : float) :
  0 <= level <= 2 ->
  level < next_level t level acc avg ->
  flt avg 12%float = true
  /\ (fge acc (high t) = true \/ fgt acc 65%float = true).
Proof.
  intros Hl. unfold next_level.
  destruct (fge acc (high t) && flt avg 10%float) eqn:EA.
  { intros _. apply andb_true_iff in EA as [Ea E10].
    split; [now apply flt_below_10_below_12 | now left]. }
  destruct (fle acc (low t) || fgt avg 20%float); [intros; lia|].
  destruct (fgt acc 65%float && flt avg 12%float) eqn:EC.
  { intros _. apply andb_true_iff in EC as [E65 E12].
    split; [exact E12 | now right]. }
  destruct (flt acc 45%float || fgt avg 18%float); intros; lia.
Qed.

Lemma next_level_down (t : Thresholds) (level : Z) (acc avg : float) :
  0 <= level <= 2 ->
  next_level t level acc avg < level ->
  fle acc (low t) = true \/ flt acc 45%float = true \/ fgt avg 18%float = true.
Proof.
  intros Hl. unfold next_level.
  destruct (fge acc (high t) && flt avg 10%float); [intros; lia|].
  destruct (fle acc (low t)) eqn:El; [now left|].
  destruct (fgt avg 20%float) eqn:E20; cbn [orb].
  { intros _. right. right. now apply fgt_above_20_above_18. }
  destruct (fgt acc 65%float && flt avg 12%float); [intros; lia|].
  destruct (flt acc 45%float) eqn:E45; [now (right; left)|].
  destruct (fgt avg 18%float) eqn:E18; [now (right; right)|].
  cbn [orb]. intros; lia.
Qed.

Lemma next_level_slow (t : Thresholds) (level : Z) (acc avg : float) :
  fgt avg 20%float = true ->
  next_level t level acc avg = Z.max (level - 1) 0.
Proof.
  intros H. unfold next_level.
  rewrite (fgt_above_20_not_below_10 avg H), H.
  now rewrite andb_false_r, orb_true_r.
Qed.

(** X1: the two dictionaries are inverse to each other and list exactly the
    names of [DIFFICULTY_LEVELS], each at the index that is its rank: a name
    maps to a rank exactly when the rank maps back to the name, exactly when
    the name stands at that index of the list. *)
Theorem X1_dictionaries_inverse (s : string) (z : Z) :
  (DIFFICULTY_MAP !! s = Some z <-> REVERSE_MAP !! z = Some s)
  /\ (DIFFICULTY_MAP !! s = Some z
      <-> 0 <= z /\ DIFFICULTY_LEVELS !! Z.to_nat z = Some s).
Proof.
  assert (Hfwd : DIFFICULTY_MAP !! s = Some z ->
                 (s = "EASY"%string /\ z = 0) \/ (s = "MEDIUM"%string /\ z = 1)
                 \/ (s = "HARD"%string /\ z = 2)).
  { unfold DIFFICULTY_MAP.
    rewrite !lookup_insert_Some, lookup_empty. intuition congruence. }
  assert (Hrev : REVERSE_MAP !! z = Some s ->
                 (s = "EASY"%string /\ z = 0) \/ (s = "MEDIUM"%string /\ z = 1)
                 \/ (s = "HARD"%string /\ z = 2)).
  { unfold REVERSE_MAP.
    rewrite !lookup_insert_Some, lookup_empty. intuition congruence. }
  assert (Hlst : 0 <= z /\ DIFFICULTY_LEVELS !! Z.to_nat z = Some s ->
                 (s = "EASY"%string /\ z = 0) \/ (s = "MEDIUM"%string /\ z = 1)
                 \/ (s = "HARD"%string /\ z = 2)).
  { intros [Hz Hl].
    assert (z = 0 \/ z = 1 \/ z = 2 \/ 3 <= z) as [-> | [-> | [-> | Hbig]]] by lia;
      [cbn in Hl; intuition congruence ..|].
    apply lookup_lt_Some in Hl. cbn in Hl. lia. }
  split; split; intros H.
  - apply Hfwd in H as [[-> ->] | [[-> ->] | [-> ->]]]; vm_compute; reflexivity.
  - apply Hrev in H as [[-> ->] | [[-> ->] | [-> ->]]]; vm_compute; reflexivity.
  - apply Hfwd in H as [[-> ->] | [[-> ->] | [-> ->]]]; (split; [lia|reflexivity]).
  - apply Hlst in H as [[-> ->] | [[-> ->] | [-> ->]]]; vm_compute; reflexivity.
Qed.

(** X2: a call never moves the difficulty by more than one level: from a
    level of rank r it returns a level of rank r - 1, r or r + 1. *)
Theorem X2_one_step_at_a_time (self : AdaptiveEngine)
    (d : Spec.DifficultyLevel) (recent_performance : list bool)
    (recent_times : list float) :
  exists d',
    snd (get_next_difficulty self (Spec.name d) recent_performance recent_times)
    = Ok (Spec.name d')
    /\ Spec.rank d - 1 <= Spec.rank d' <= Spec.rank d + 1.
Proof.
  destruct (adapt_rule_cases self d recent_performance recent_times)
    as [d' [Hrule Hcase]].
  exists d'. rewrite (get_next_difficulty_ok _ _ _ _ _ Hrule).
  split; [reflexivity|].
  destruct Hcase as [[-> _] | (_ & _ & ->)]; [lia|].
  apply next_level_step, rank_range.
Qed.

(** X3: the rule is monotone in the current level: on the same
    configuration, window and times, a learner who stands on a higher level
    is never sent to a lower level than one who stands below. *)
Theorem X3_monotone_in_level (self : AdaptiveEngine)
    (d1 d2 : Spec.DifficultyLevel) (recent_performance : list bool)
    (recent_times : list float) :
  Spec.rank d1 <= Spec.rank d2 ->
  exists d1' d2',
    snd (get_next_difficulty self (Spec.name d1) recent_performance recent_times)
    = Ok (Spec.name d1')
    /\ snd (get_next_difficulty self (Spec.name d2) recent_performance
              recent_times)
       = Ok (Spec.name d2')
    /\ Spec.rank d1' <= Spec.rank d2'.
Proof.
  intros Hle.
  destruct (adapt_rule_cases self d1 recent_performance recent_times)
    as [d1' [Hrule1 Hcase1]].
  destruct (adapt_rule_cases self d2 recent_performance recent_times)
    as [d2' [Hrule2 Hcase2]].
  exists d1', d2'.
  rewrite (get_next_difficulty_ok _ _ _ _ _ Hrule1),
          (get_next_difficulty_ok _ _ _ _ _ Hrule2).
  split; [reflexivity|]. split; [reflexivity|].
  destruct Hcase1 as [[-> Hg1] | (Hne1 & Hmin1 & ->)],
           Hcase2 as [[-> Hg2] | (Hne2 & Hmin2 & ->)].
  - exact Hle.
  - exfalso. destruct Hg1; [congruence | lia].
  - exfalso. destruct Hg2; [congruence | lia].
  - now apply next_level_mono.
Qed.

Lemma X3_monotone_in_level_witness :
  exists d1' d2',
    snd (get_next_difficulty (fresh default_config) (Spec.name Spec.EASY)
           [false; false; false] [30; 30; 30]%float)
    = Ok (Spec.name d1')
    /\ snd (get_next_difficulty (fresh default_config) (Spec.name Spec.HARD)
              [false; false; false] [30; 30; 30]%float)
       = Ok (Spec.name d2')
    /\ Spec.rank d1' <= Spec.rank d2'.
Proof.
  apply (X3_monotone_in_level (fresh default_config) Spec.EASY Spec.HARD
           [false; false; false] [30; 30; 30]%float).
  vm_compute. discriminate.
Defined.

(** The level a call returned, read back from the rule. *)
Lemma returned_level (self : AdaptiveEngine) (d d' : Spec.DifficultyLevel)
    (perf : list bool) (times : list float) :
  snd (get_next_difficulty self (Spec.name d) perf times) = Ok (Spec.name d') ->
  (d' = d /\ (perf = [] \/ len perf < min_attempts_before_change (config self)))
  \/ (perf <> []
      /\ min_attempts_before_change (config self) <= len perf
      /\ Spec.rank d'
         = next_level (rule_based_thresholds (config self)) (Spec.rank d)
             (accuracy_pct perf) (decision_avg_time times)).
Proof.
  intros Hres.
  destruct (adapt_rule_cases self d perf times) as [d'' [Hrule Hcase]].
  rewrite (get_next_difficulty_ok _ _ _ _ _ Hrule) in Hres. cbn [snd] in Hres.
  assert (d'' = d') as -> by (apply name_inj; congruence).
  exact Hcase.
Qed.

(** X4: a call returns a higher level only on the adaptation path, with
    times supplied whose mean is below 12 seconds and an accuracy that is at
    least the high threshold or above 65 percent. *)
Theorem X4_rises_only_when (self : AdaptiveEngine)
    (d d' : Spec.DifficultyLevel) (recent_performance : list bool)
    (recent_times : list float) :
  snd (get_next_difficulty self (Spec.name d) recent_performance recent_times)
  = Ok (Spec.name d') ->
  Spec.rank d < Spec.rank d' ->
  recent_performance <> []
  /\ min_attempts_before_change (config self) <= len recent_performance
  /\ recent_times <> []
  /\ flt (np_mean recent_times) 12%float = true
  /\ (fge (accuracy_pct recent_performance)
          (high (rule_based_thresholds (config self))) = true
      \/ fgt (accuracy_pct recent_performance) 65%float = true).
Proof.
  intros Hres Hup.
  destruct (returned_level _ _ _ _ _ Hres) as [[-> _] | (Hne & Hmin & Hr)];
    [lia|].
  rewrite Hr in Hup.
  apply next_level_up in Hup as [H12 Hacc]; [|apply rank_range].
  destruct recent_times as [|t ts]; [vm_compute in H12; discriminate|].
  repeat (split; [assumption || discriminate|]). exact Hacc.
Qed.

Lemma X4_rises_only_when_witness :
  [true; true; true; true] <> []
  /\ min_attempts_before_change (config (fresh default_config))
     <= len [true; true; true; true]
  /\ [5; 6; 4; 7]%float <> []
  /\ flt (np_mean [5; 6; 4; 7]%float) 12%float = true
  /\ (fge (accuracy_pct [true; true; true; true])
          (high (rule_based_thresholds (config (fresh default_config)))) = true
      \/ fgt (accuracy_pct [true; true; true; true]) 65%float = true).
Proof.
  apply (X4_rises_only_when (fresh default_config) Spec.MEDIUM Spec.HARD
           [true; true; true; true] [5; 6; 4; 7]%float).
  - vm_compute. reflexivity.
  - vm_compute. reflexivity.
Defined.

(** X5: a call returns a lower level only on the adaptation path, when the
    accuracy is at most the low threshold or below 45 percent, or no times
    were supplied, or their mean is above 18 seconds. *)
Theorem X5_drops_only_when (self : AdaptiveEngine)
    (d d' : Spec.DifficultyLevel) (recent_performance : list bool)
    (recent_times : list float) :
  snd (get_next_difficulty self (Spec.name d) recent_performance recent_times)
  = Ok (Spec.name d') ->
  Spec.rank d' < Spec.rank d ->
  recent_performance <> []
  /\ min_attempts_before_change (config self) <= len recent_performance
  /\ (fle (accuracy_pct recent_performance)
          (low (rule_based_thresholds (config self))) = true
      \/ flt (accuracy_pct recent_performance) 45%float = true
      \/ recent_times = []
      \/ fgt (np_mean recent_times) 18%float = true).
Proof.
  intros Hres Hdown.
  destruct (returned_level _ _ _ _ _ Hres) as [[-> _] | (Hne & Hmin & Hr)];
    [lia|].
  rewrite Hr in Hdown.
  apply next_level_down in Hdown; [|apply rank_range].
  split; [exact Hne|]. split; [exact Hmin|].
  destruct Hdown as [H | [H | H]]; [now left | now (right; left) |].
  right. right. destruct recent_times; [now left | now right].
Qed.

Lemma X5_drops_only_when_witness :
  [false; false; false; true] <> []
  /\ min_attempts_before_change (config (fresh default_config))
     <= len [false; false; false; true]
  /\ (fle (accuracy_pct [false; false; false; true])
          (low (rule_based_thresholds (config (fresh default_config)))) = true
      \/ flt (accuracy_pct [false; false; false; true]) 45%float = true
      \/ [25; 22; 21; 8]%float = []
      \/ fgt (np_mean [25; 22; 21; 8]%float) 18%float = true).
Proof.
  apply (X5_drops_only_when (fresh default_config) Spec.MEDIUM Spec.EASY
           [false; false; false; true] [25; 22; 21; 8]%float).
  - vm_compute. reflexivity.
  - vm_compute. reflexivity.
Defined.

(** X6: slow answers override everything else: on the adaptation path,
    once the mean of the supplied times is above 20 seconds the call returns
    one level down (EASY stays EASY), for every accuracy and every pair of
    thresholds. *)
Theorem X6_slow_answers_step_down (self : AdaptiveEngine)
    (d : Spec.DifficultyLevel) (recent_performance : list bool)
    (recent_times : list float) :
  recent_performance <> [] ->
  min_attempts_before_change (config self) <= len recent_performance ->
  recent_times <> [] ->
  fgt (np_mean recent_times) 20%float = true ->
  exists d',
    snd (get_next_difficulty self (Spec.name d) recent_performance recent_times)
    = Ok (Spec.name d')
    /\ Spec.rank d' = Z.max (Spec.rank d - 1) 0.
Proof.
  intros Hne Hmin Htimes Hslow.
  destruct (adapt_rule_path self recent_times d recent_performance Hne Hmin)
    as [d' [Hrule Hrank]].
  exists d'. rewrite (get_next_difficulty_ok _ _ _ _ _ Hrule).
  split; [reflexivity|]. rewrite Hrank. apply next_level_slow.
  destruct recent_times; [congruence | exact Hslow].
Qed.

Lemma X6_slow_answers_step_down_witness :
  exists d',
    snd (get_next_difficulty (fresh default_config) (Spec.name Spec.HARD)
           [true; true; true] [30; 25; 22]%float)
    = Ok (Spec.name d')
    /\ Spec.rank d' = Z.max (Spec.rank Spec.HARD - 1) 0.
Proof.
  apply (X6_slow_answers_step_down (fresh default_config) Spec.HARD
           [true; true; true] [30; 25; 22]%float).
  - discriminate.
  - vm_compute. discriminate.
  - discriminate.
  - vm_compute. reflexivity.
Defined.

(** X7: when the low threshold is at least 45, as it is by default (50),
    the test [accuracy < 45] of the middle band never decides anything: the
    cascade computes the same level without it, so in the middle band only
    a mean time above 18 seconds lowers the level. *)
Theorem X7_test_below_45_is_dead (t : Thresholds) (level : Z)
    (acc avg : float) :
  fle 45%float (low t) = true ->
  next_level t level acc avg = next_level_without_45 t level acc avg.
Proof.
  intros Hlow. unfold next_level, next_level_without_45.
  destruct (fge acc (high t) && flt avg 10%float); [reflexivity|].
  destruct (fle acc (low t)) eqn:El; [reflexivity|].
  destruct (flt acc 45%float) eqn:E45; [|reflexivity].
  pose proof (flt_fle _ _ (flt_fle_trans _ _ _ E45 Hlow)) as Habs.
  congruence.
Qed.

Lemma X7_test_below_45_is_dead_witness :
  next_level (rule_based_thresholds default_config) 1 40%float 15%float
  = next_level_without_45 (rule_based_thresholds default_config) 1
      40%float 15%float.
Proof.
  apply (X7_test_below_45_is_dead (rule_based_thresholds default_config) 1
           40%float 15%float).
  vm_compute. reflexivity.
Defined.

(** ** The object across calls *)

Lemma sorted_snoc (l : list Z) (x : Z) :
  StronglySorted Z.lt l -> Forall (fun y => y < x) l ->
  StronglySorted Z.lt (l ++ [x]).
Proof.
  induction 1 as [|a l Hs IH Ha]; intros Hx; simpl.
  - constructor; constructor.
  - apply Forall_cons in Hx as [Hax Hlx].
    constructor; [now apply IH|].
    apply Forall_app. split; [exact Ha|]. constructor; [exact Hax|constructor].
Qed.

Lemma get_next_difficulty_config (self : AdaptiveEngine) (cur : string)
    (perf : list bool) (times : list float) :
  config (fst (get_next_difficulty self cur perf times)) = config self.
Proof.
  unfold get_next_difficulty.
  now destruct (_adapt_rule_based _ cur perf times).
Qed.

Lemma apply_op_config (self : AdaptiveEngine) (op : EngineOp) :
  config (apply_op self op) = config self.
Proof. destruct op; [apply get_next_difficulty_config|reflexivity]. Qed.

Lemma apply_op_numbered (self : AdaptiveEngine) (op : EngineOp) :
  0 <= attempt_count self -> history_numbered self ->
  0 <= attempt_count (apply_op self op) /\ history_numbered (apply_op self op).
Proof.
  intros Hc [Hs Hb]. unfold history_numbered.
  destruct op as [cur perf times|]; cbn [apply_op].
  - destruct (_adapt_rule_based self cur perf times) as [nd|e] eqn:Hrule.
    + rewrite (get_next_difficulty_ok _ _ _ _ _ Hrule).
      cbn [fst history_append bump_attempt_count attempt_count history].
      split; [lia|]. split.
      * rewrite map_app. apply sorted_snoc; [exact Hs|].
        apply Forall_map. eapply Forall_impl; [exact Hb|].
        cbn. intros; lia.
      * apply Forall_app. split.
        -- eapply Forall_impl; [exact Hb|]. cbn. intros; lia.
        -- constructor; [cbn; lia|constructor].
    + rewrite (get_next_difficulty_raise _ _ _ _ _ Hrule).
      cbn [fst bump_attempt_count attempt_count history].
      split; [lia|]. split; [exact Hs|].
      eapply Forall_impl; [exact Hb|]. cbn. intros; lia.
  - cbn. split; [lia|]. split; constructor.
Qed.

(** X8: whatever a client does with an engine after constructing it (any
    decision calls, raising or not, and resets, in any order), the
    configuration is never changed, the sequence numbers in the history are
    strictly increasing, each lies between 1 and the attempt counter, and so
    the history never holds more entries than the counter says. *)
Theorem X8_history_stays_numbered (c : option AdaptationConfig)
    (self : AdaptiveEngine) (ops : list EngineOp) :
  __init__ c = Ok self ->
  config (run_ops self ops) = config self
  /\ history_numbered (run_ops self ops)
  /\ len (history (run_ops self ops)) <= attempt_count (run_ops self ops).
Proof.
  intros Hinit.
  assert (H0 : 0 <= attempt_count self /\ history_numbered self).
  { injection Hinit as <-. cbn. split; [lia|]. split; constructor. }
  clear Hinit.
  assert (Hgen : config (run_ops self ops) = config self
                 /\ 0 <= attempt_count (run_ops self ops)
                 /\ history_numbered (run_ops self ops)).
  { unfold run_ops. revert self H0.
    induction ops as [|op ops IH]; intros self [Hc Hn]; cbn [fold_left].
    - auto.
    - destruct (apply_op_numbered self op Hc Hn) as [Hc' Hn'].
      destruct (IH (apply_op self op) (conj Hc' Hn')) as (Hcfg & Hc'' & Hn'').
      rewrite Hcfg, apply_op_config. auto. }
  destruct Hgen as (Hcfg & Hc & Hs & Hb).
  split; [exact Hcfg|]. split; [split; assumption|].
  assert (Hlen : forall l : list Z, StronglySorted Z.lt l ->
                 forall lo, Forall (fun y => lo < y) l ->
                 forall hi, Forall (fun y => y <= hi) l ->
                 lo <= hi -> Z.of_nat (length l) <= hi - lo).
  { induction 1 as [|a l Hsl IH Ha]; intros lo Hlo hi Hhi Hle; simpl.
    - lia.
    - apply Forall_cons in Hlo as [Hloa Hlo], Hhi as [Hahi Hhi].
      assert (Z.of_nat (length l) <= hi - a); [|lia].
      apply IH; [exact Ha | exact Hhi | lia]. }
  unfold len. rewrite <- (length_map attempt).
  replace (attempt_count (run_ops self ops))
    with (attempt_count (run_ops self ops) - 0) by lia.
  apply Hlen; [exact Hs | | | exact Hc];
    apply Forall_map; (eapply Forall_impl; [exact Hb|]); cbn; intros; lia.
Qed.

Lemma X8_history_stays_numbered_witness :
  config (run_ops (fresh default_config)
            [OpNext "EXPERT" [true; true; true] []; OpNext "EASY" [] []])
  = config (fresh default_config)
  /\ history_numbered
       (run_ops (fresh default_config)
          [OpNext "EXPERT" [true; true; true] []; OpNext "EASY" [] []])
  /\ len (history
            (run_ops (fresh default_config)
               [OpNext "EXPERT" [true; true; true] []; OpNext "EASY" [] []]))
     <= attempt_count
          (run_ops (fresh default_config)
             [OpNext "EXPERT" [true; true; true] []; OpNext "EASY" [] []]).
Proof.
  apply (X8_history_stays_numbered (Some default_config) (fresh default_config)
           [OpNext "EXPERT" [true; true; true] []; OpNext "EASY" [] []]).
  reflexivity.
Defined.

(** A call that raises leaves a gap: the counter runs ahead of the history
    for good (until the next reset). *)
Example raising_call_leaves_gap :
  map attempt
    (history (run_ops (fresh default_config)
                [OpNext "EXPERT" [true; true; true] []; OpNext "EASY" [] []]))
  = [2].
Proof. vm_compute. reflexivity. Qed.

(** X9: after a reset, as long as no call raises, the entries are numbered
    1, 2, 3, ... without gaps and the attempt counter equals the number of
    entries. *)
Theorem X9_numbering_restarts_at_one (self : AdaptiveEngine)
    (ops : list EngineOp) :
  Forall (call_returns self) ops ->
  map attempt (history (run_ops (reset_history self) ops))
  = map Z.of_nat (seq 1 (length ops))
  /\ attempt_count (run_ops (reset_history self) ops) = len ops.
Proof.
  intros Hops.
  assert (Hgen : forall (s : AdaptiveEngine) (n : nat),
             config s = config self ->
             attempt_count s = Z.of_nat n ->
             map attempt (history s) = map Z.of_nat (seq 1 n) ->
             map attempt (history (fold_left apply_op ops s))
             = map Z.of_nat (seq 1 (n + length ops))
             /\ attempt_count (fold_left apply_op ops s)
                = Z.of_nat (n + length ops)).
  { induction Hops as [|op ops Hop Hops IH]; intros s n Hcfg Hcnt Hhist;
      cbn [fold_left length].
    - rewrite Nat.add_0_r. auto.
    - destruct op as [cur perf times|]; [|destruct Hop].
      assert (Hdom : in_domain s cur perf).
      { unfold in_domain in *. now rewrite Hcfg. }
      destruct (adapt_rule_returns s times cur perf Hdom) as [nd Hrule].
      replace (n + S (length ops))%nat with (S n + length ops)%nat by lia.
      apply IH; cbn [apply_op];
        rewrite (get_next_difficulty_ok _ _ _ _ _ Hrule);
        cbn [fst history_append bump_attempt_count config attempt_count history].
      + exact Hcfg.
      + lia.
      + rewrite map_app, Hhist, seq_S, map_app. cbn. repeat f_equal. lia. }
  destruct (Hgen (reset_history self) 0%nat) as [Hh Hc]; try reflexivity.
  split; [exact Hh | exact Hc].
Qed.

Lemma X9_numbering_restarts_at_one_witness :
  map attempt
    (history (run_ops (reset_history (fresh default_config))
                [OpNext "EASY" [true] [3%float]; OpNext "HARD" [] []]))
  = map Z.of_nat (seq 1 (length [OpNext "EASY" [true] [3%float];
                                 OpNext "HARD" [] []]))
  /\ attempt_count
       (run_ops (reset_history (fresh default_config))
          [OpNext "EASY" [true] [3%float]; OpNext "HARD" [] []])
     = len [OpNext "EASY" [true] [3%float]; OpNext "HARD" [] []].
Proof.
  apply (X9_numbering_restarts_at_one (fresh default_config)
           [OpNext "EASY" [true] [3%float]; OpNext "HARD" [] []]).
  constructor; [left; simpl; tauto|].
  constructor; [right; left; reflexivity|]. constructor.
Defined.

(** ** Slices and the tracker's windows *)

Lemma len_nonneg {A : Type} (l : list A) : 0 <= len l.
Proof. unfold len. lia. Qed.

Lemma len_nil_iff {A : Type} (l : list A) : len l = 0 <-> l = [].
Proof. unfold len. destruct l; cbn; split; intros; (congruence || lia). Qed.

(** [l[-n:]] for a positive [n]: the last [n] items, all of them when the
    list is shorter. *)
Lemma slice_last (A : Type) (l : list A) (n : Z) :
  1 <= n ->
  slice_from l (- n) = drop (length l - Z.to_nat n) l.
Proof.
  intros Hn. unfold slice_from, len.
  destruct (Z.ltb_spec (- n) 0) as [_|H]; [|lia].
  f_equal. lia.
Qed.

(** [l[k:]] for a positive [k], which is what [l[-n:]] is for a negative
    [n]: the list without its first [k] items. *)
Lemma slice_negative (A : Type) (l : list A) (n : Z) :
  n < 0 -> slice_from l (- n) = drop (Z.to_nat (- n)) l.
Proof.
  intros Hn. unfold slice_from, len.
  destruct (Z.ltb_spec (- n) 0) as [H|_]; [lia|].
  destruct (Z.le_gt_cases (- n) (Z.of_nat (length l))) as [Hle|Hgt].
  - f_equal. lia.
  - rewrite Z.min_r by lia. rewrite Nat2Z.id.
    rewrite !drop_ge by lia. reflexivity.
Qed.

Lemma slice_zero (A : Type) (l : list A) : slice_from l (- 0) = l.
Proof. unfold slice_from, len. cbn. rewrite Z.min_l by lia. reflexivity. Qed.

Lemma slice_suffix (A : Type) (l : list A) (start : Z) :
  exists older, l = older ++ slice_from l start.
Proof.
  unfold slice_from. eexists. symmetry. apply take_drop.
Qed.

Lemma recent_records_empty (self : Tracker.PerformanceTracker)
    (recent_n : option Z) :
  Tracker.records self <> [] ->
  (Tracker.recent_records self recent_n = []
   <-> exists k, recent_n = Some k /\ k < 0
                 /\ len (Tracker.records self) <= - k).
Proof.
  intros Hne. unfold Tracker.recent_records.
  destruct recent_n as [n|].
  - destruct (Z.eqb_spec n 0) as [->|Hn0].
    + split; [congruence|]. intros (k & [= <-] & Hk & _). lia.
    + destruct (Z.lt_ge_cases n 0) as [Hneg|Hpos].
      * rewrite slice_negative by exact Hneg. split.
        -- intros Hd. exists n. split; [reflexivity|]. split; [exact Hneg|].
           apply (f_equal length) in Hd. rewrite length_drop in Hd.
           unfold len. cbn in Hd. lia.
        -- intros (k & [= <-] & _ & Hk). apply drop_ge. unfold len in Hk. lia.
      * rewrite slice_last by lia. split.
        -- intros Hd. apply (f_equal length) in Hd. rewrite length_drop in Hd.
           cbn in Hd. destruct (Tracker.records self); [congruence|].
           cbn in Hd. lia.
        -- intros (k & [= <-] & Hk & _). lia.
  - split; [congruence|]. intros (k & Hk & _). discriminate.
Qed.

Lemma correct_count_from (rs : list Tracker.PerformanceRecord) (a : Z) :
  fold_left (fun acc r => if Tracker.correct r then acc + 1 else acc) rs a
  = fold_left (fun acc b => acc + Z.b2z b) (map Tracker.correct rs) a.
Proof.
  revert a. induction rs as [|r rs IH]; intros a; cbn; [reflexivity|].
  rewrite <- IH. destruct (Tracker.correct r); cbn; f_equal; lia.
Qed.

Lemma correct_count_sum (rs : list Tracker.PerformanceRecord) :
  Tracker.correct_count rs = py_sum (map Tracker.correct rs).
Proof. apply correct_count_from. Qed.

(** X10: for a window size of at least 1, [get_performance_trend] returns
    the flags of the last [window_size] records in their order, all of them
    when fewer are logged; a window size of 0 does not give an empty window
    but the flags of every record. *)
Theorem X10_trend_window (self : Tracker.PerformanceTracker)
    (window_size : Z) :
  (1 <= window_size ->
   len (Tracker.get_performance_trend self window_size)
   = Z.min window_size (len (Tracker.records self))
   /\ exists older,
        map Tracker.correct (Tracker.records self)
        = older ++ Tracker.get_performance_trend self window_size)
  /\ Tracker.get_performance_trend self 0
     = map Tracker.correct (Tracker.records self).
Proof.
  unfold Tracker.get_performance_trend. split.
  - intros Hw. split.
    + unfold len. rewrite length_map, slice_last, length_drop by exact Hw. lia.
    + destruct (slice_suffix _ (Tracker.records self) (- window_size))
        as [older Hold].
      exists (map Tracker.correct older).
      rewrite <- map_app. now rewrite <- Hold.
  - now rewrite slice_zero.
Qed.

Lemma X10_trend_window_witness :
  len (Tracker.get_performance_trend
         (Tracker.log_attempt (Tracker.__init__ "Ada" 0) 1 "EASY" true
            4%float 7 7 1) 5)
  = Z.min 5 (len (Tracker.records
                    (Tracker.log_attempt (Tracker.__init__ "Ada" 0) 1 "EASY"
                       true 4%float 7 7 1)))
  /\ exists older,
       map Tracker.correct
         (Tracker.records
            (Tracker.log_attempt (Tracker.__init__ "Ada" 0) 1 "EASY" true
               4%float 7 7 1))
       = older ++ Tracker.get_performance_trend
                    (Tracker.log_attempt (Tracker.__init__ "Ada" 0) 1 "EASY"
                       true 4%float 7 7 1) 5.
Proof.
  apply (proj1 (X10_trend_window
                  (Tracker.log_attempt (Tracker.__init__ "Ada" 0) 1 "EASY" true
                     4%float 7 7 1) 5)).
  lia.
Defined.

(** X11: [log_attempt] appends exactly one record and touches nothing else;
    right after it, every window of size at least 1 is non-empty and ends
    with the flag that was just logged. *)
Theorem X11_logged_flag_closes_window (self : Tracker.PerformanceTracker)
    (puzzle_id : Z) (difficulty : string) (correct : bool)
    (time_taken : float) (user_answer correct_answer : Z)
    (now : Tracker.datetime) (window_size : Z) :
  1 <= window_size ->
  exists r,
    Tracker.records
      (Tracker.log_attempt self puzzle_id difficulty correct time_taken
         user_answer correct_answer now)
    = Tracker.records self ++ [r]
    /\ Tracker.correct r = correct
    /\ Tracker.time_taken r = time_taken
    /\ Tracker.difficulty r = difficulty
    /\ last (Tracker.get_performance_trend
               (Tracker.log_attempt self puzzle_id difficulty correct
                  time_taken user_answer correct_answer now) window_size)
       = Some correct.
Proof.
  intros Hw. eexists. split; [reflexivity|]. cbn.
  repeat (split; [reflexivity|]).
  unfold Tracker.get_performance_trend. cbn [Tracker.log_attempt Tracker.records].
  rewrite slice_last by exact Hw. rewrite length_app. cbn [length].
  rewrite drop_app_le by lia. rewrite map_app. cbn. apply last_snoc.
Qed.

Lemma X11_logged_flag_closes_window_witness :
  exists r,
    Tracker.records
      (Tracker.log_attempt (Tracker.__init__ "Ada" 0) 1 "EASY" false 4%float
         3 7 1)
    = Tracker.records (Tracker.__init__ "Ada" 0) ++ [r]
    /\ Tracker.correct r = false
    /\ Tracker.time_taken r = 4%float
    /\ Tracker.difficulty r = "EASY"%string
    /\ last (Tracker.get_performance_trend
               (Tracker.log_attempt (Tracker.__init__ "Ada" 0) 1 "EASY" false
                  4%float 3 7 1) 5)
       = Some false.
Proof.
  apply (X11_logged_flag_closes_window (Tracker.__init__ "Ada" 0) 1 "EASY"
           false 4%float 3 7 1 5).
  lia.
Defined.

(** X12: [get_accuracy] and [get_average_time] raise [ZeroDivisionError] in
    exactly one situation: some record is logged and [recent_n] is a
    negative number whose size reaches the number of records (the slice
    [records[-recent_n:]] is then empty).  With [recent_n] omitted, 0 or
    positive they always return. *)
Theorem X12_window_queries_fail_only_on_negative_n
    (fsum : list float -> float) (self : Tracker.PerformanceTracker)
    (recent_n : option Z) :
  (Tracker.get_accuracy self recent_n = Tracker.ZeroDivisionError
   <-> Tracker.records self <> []
       /\ exists k, recent_n = Some k /\ k < 0
                    /\ len (Tracker.records self) <= - k)
  /\ (Tracker.get_average_time fsum self recent_n = Tracker.ZeroDivisionError
      <-> Tracker.records self <> []
          /\ exists k, recent_n = Some k /\ k < 0
                       /\ len (Tracker.records self) <= - k).
Proof.
  unfold Tracker.get_accuracy, Tracker.get_average_time,
    Tracker.percentage, Tracker.mean_time.
  destruct (Tracker.records self) as [|r rs] eqn:Hrec.
  - split; (split; [discriminate | intros [H _]; congruence]).
  - assert (Hne : Tracker.records self <> []) by congruence.
    pose proof (recent_records_empty self recent_n Hne) as Hempty.
    rewrite Hrec in Hempty.
    destruct (Z.eqb_spec (len (Tracker.recent_records self recent_n)) 0)
      as [H0|H0]; rewrite len_nil_iff in H0.
    + apply Hempty in H0.
      split; (split; [intros _; split; [discriminate|exact H0] | reflexivity]).
    + split; (split; [discriminate|]); intros [_ Hk]; apply Hempty in Hk;
        contradiction.
Qed.

(** X13: for a window of at least 1 on a tracker with records, the accuracy
    [get_accuracy] reports is the very number the engine computes from
    [get_performance_trend] of the same window - the percentage the console
    prints and the one the engine decides on and logs cannot differ. *)
Theorem X13_tracker_and_engine_accuracy_agree
    (self : Tracker.PerformanceTracker) (window_size : Z) :
  Tracker.records self <> [] ->
  1 <= window_size ->
  Tracker.get_accuracy self (Some window_size)
  = Tracker.Return
      (accuracy_pct (Tracker.get_performance_trend self window_size))
  /\ logged_accuracy (Tracker.get_performance_trend self window_size)
     = PyFloat (accuracy_pct (Tracker.get_performance_trend self window_size)).
Proof.
  intros Hne Hw.
  assert (Hwin : Tracker.recent_records self (Some window_size) <> []).
  { intros Habs. apply (recent_records_empty self _ Hne) in Habs
      as (k & [= <-] & Hk & _). lia. }
  assert (Hrr : Tracker.recent_records self (Some window_size)
                = slice_from (Tracker.records self) (- window_size)).
  { unfold Tracker.recent_records.
    destruct (Z.eqb_spec window_size 0); [lia|reflexivity]. }
  split.
  - unfold Tracker.get_accuracy, Tracker.percentage.
    destruct (Tracker.records self) as [|r rs] eqn:Hrec; [congruence|].
    destruct (Z.eqb_spec (len (Tracker.recent_records self (Some window_size)))
                0) as [H0|_]; [apply len_nil_iff in H0; contradiction|].
    rewrite Hrr. unfold accuracy_pct, Tracker.get_performance_trend.
    rewrite correct_count_sum. unfold len. now rewrite length_map, Hrec.
  - unfold Tracker.get_performance_trend. rewrite <- Hrr.
    destruct (Tracker.recent_records self (Some window_size)); [congruence|].
    reflexivity.
Qed.

Lemma X13_tracker_and_engine_accuracy_agree_witness :
  Tracker.get_accuracy
    (Tracker.log_attempt (Tracker.__init__ "Ada" 0) 1 "EASY" true 4%float 7 7 1)
    (Some 5)
  = Tracker.Return
      (accuracy_pct
         (Tracker.get_performance_trend
            (Tracker.log_attempt (Tracker.__init__ "Ada" 0) 1 "EASY" true
               4%float 7 7 1) 5))
  /\ logged_accuracy
       (Tracker.get_performance_trend
          (Tracker.log_attempt (Tracker.__init__ "Ada" 0) 1 "EASY" true
             4%float 7 7 1) 5)
     = PyFloat
         (accuracy_pct
            (Tracker.get_performance_trend
               (Tracker.log_attempt (Tracker.__init__ "Ada" 0) 1 "EASY" true
                  4%float 7 7 1) 5)).
Proof.
  apply (X13_tracker_and_engine_accuracy_agree
           (Tracker.log_attempt (Tracker.__init__ "Ada" 0) 1 "EASY" true
              4%float 7 7 1) 5).
  - discriminate.
  - lia.
Defined.

(** ** Statistics by level *)

Lemma stats_lookup (fsum : list float -> float)
    (self : Tracker.PerformanceTracker) (d : string) :
  Tracker.get_difficulty_stats fsum self !! d
  = match Tracker.records_of self d with
    | [] => None
    | rs => if bool_decide (In d DIFFICULTY_LEVELS)
            then Some (Tracker.stats_of fsum rs) else None
    end.
Proof.
  unfold Tracker.get_difficulty_stats. cbn [fold_left].
  destruct (decide (d = "HARD"%string)) as [->|Hh].
  { destruct (Tracker.records_of self "HARD") eqn:EH.
    - destruct (Tracker.records_of self "MEDIUM"),
               (Tracker.records_of self "EASY");
        rewrite ?lookup_insert_ne, ?lookup_empty by discriminate; reflexivity.
    - now rewrite lookup_insert_eq. }
  destruct (decide (d = "MEDIUM"%string)) as [->|Hm].
  { destruct (Tracker.records_of self "MEDIUM") eqn:EM.
    - destruct (Tracker.records_of self "HARD"),
               (Tracker.records_of self "EASY");
        rewrite ?lookup_insert_ne, ?lookup_empty by discriminate; reflexivity.
    - destruct (Tracker.records_of self "HARD");
        rewrite ?lookup_insert_ne by discriminate;
        now rewrite lookup_insert_eq. }
  destruct (decide (d = "EASY"%string)) as [->|He].
  { destruct (Tracker.records_of self "EASY") eqn:EE.
    - destruct (Tracker.records_of self "HARD"),
               (Tracker.records_of self "MEDIUM");
        rewrite ?lookup_insert_ne, ?lookup_empty by discriminate; reflexivity.
    - destruct (Tracker.records_of self "HARD"),
               (Tracker.records_of self "MEDIUM");
        rewrite ?lookup_insert_ne by discriminate;
        now rewrite lookup_insert_eq. }
  rewrite bool_decide_eq_false_2
    by (cbn; intros [E | [E | [E | []]]]; congruence).
  destruct (Tracker.records_of self "HARD"),
           (Tracker.records_of self "MEDIUM"),
           (Tracker.records_of self "EASY");
    rewrite ?lookup_insert_ne, ?lookup_empty by congruence;
    now destruct (Tracker.records_of self d).
Qed.

Lemma records_of_nil (self : Tracker.PerformanceTracker) (d : string) :
  Tracker.records_of self d = []
  <-> forall r, In r (Tracker.records self) -> Tracker.difficulty r <> d.
Proof.
  unfold Tracker.records_of. split.
  - intros Hnil r Hin Hd.
    assert (Hf : In r (List.filter
                         (fun r => String.eqb (Tracker.difficulty r) d)
                         (Tracker.records self))).
    { apply filter_In. split; [exact Hin|]. now apply String.eqb_eq. }
    rewrite Hnil in Hf. destruct Hf.
  - intros Hall.
    destruct (List.filter _ (Tracker.records self)) as [|r rs] eqn:E;
      [reflexivity|].
    assert (Hin : In r (r :: rs)) by now left.
    rewrite <- E in Hin. apply filter_In in Hin as [Hin Hd].
    apply String.eqb_eq in Hd. now destruct (Hall r Hin).
Qed.

(** X14: [get_difficulty_stats] has a key for a level exactly when the level
    is EASY, MEDIUM or HARD and some record carries it; the entry then
    counts the records of that level, at least 1.  Records logged under any
    other name appear nowhere in the statistics. *)
Theorem X14_stats_keys_and_counts (fsum : list float -> float)
    (self : Tracker.PerformanceTracker) (d : string) :
  (is_Some (Tracker.get_difficulty_stats fsum self !! d)
   <-> In d DIFFICULTY_LEVELS
       /\ exists r, In r (Tracker.records self) /\ Tracker.difficulty r = d)
  /\ (forall st,
        Tracker.get_difficulty_stats fsum self !! d = Some st ->
        1 <= Tracker.attempts st
        /\ Tracker.attempts st
           = len (List.filter
                    (fun r => String.eqb (Tracker.difficulty r) d)
                    (Tracker.records self))).
Proof.
  rewrite stats_lookup.
  destruct (Tracker.records_of self d) as [|r rs] eqn:Hrs.
  - split.
    + split; [intros [st Hst]; discriminate|].
      intros [_ (r & Hin & Hd)].
      pose proof (proj1 (records_of_nil self d) Hrs) as Hall.
      now destruct (Hall r Hin).
    + discriminate.
  - assert (Hex : exists r, In r (Tracker.records self)
                            /\ Tracker.difficulty r = d).
    { exists r. assert (Hin : In r (r :: rs)) by now left.
      rewrite <- Hrs in Hin. unfold Tracker.records_of in Hin.
      apply filter_In in Hin as [Hin Hd]. now apply String.eqb_eq in Hd. }
    destruct (bool_decide (In d DIFFICULTY_LEVELS)) eqn:Hd.
    + apply bool_decide_eq_true in Hd. split.
      * split; [intros _; now split | intros _; eexists; reflexivity].
      * intros st [= <-]. cbn [Tracker.stats_of Tracker.attempts].
        unfold Tracker.records_of in Hrs. rewrite Hrs. unfold len. cbn. lia.
    + apply bool_decide_eq_false in Hd. split.
      * split; [intros [st Hst]; discriminate | intros [Hin _]; contradiction].
      * discriminate.
Qed.

Lemma level_flags (s : string) :
  Z.b2z (String.eqb s "EASY") + Z.b2z (String.eqb s "MEDIUM")
  + Z.b2z (String.eqb s "HARD")
  = Z.b2z (bool_decide (In s DIFFICULTY_LEVELS)).
Proof.
  destruct (String.eqb_spec s "EASY") as [->|E];
    [now rewrite bool_decide_eq_true_2 by (cbn; tauto)|].
  destruct (String.eqb_spec s "MEDIUM") as [->|M];
    [now rewrite bool_decide_eq_true_2 by (cbn; tauto)|].
  destruct (String.eqb_spec s "HARD") as [->|H];
    [now rewrite bool_decide_eq_true_2 by (cbn; tauto)|].
  now rewrite bool_decide_eq_false_2
    by (cbn; intros [X | [X | [X | []]]]; congruence).
Qed.

Lemma filter_levels_count (rs : list Tracker.PerformanceRecord) :
  len (List.filter (fun r => String.eqb (Tracker.difficulty r) "EASY") rs)
  + len (List.filter (fun r => String.eqb (Tracker.difficulty r) "MEDIUM") rs)
  + len (List.filter (fun r => String.eqb (Tracker.difficulty r) "HARD") rs)
  = len (List.filter
           (fun r => bool_decide (In (Tracker.difficulty r) DIFFICULTY_LEVELS))
           rs).
Proof.
  unfold len. induction rs as [|r rs IH]; [reflexivity|].
  cbn [List.filter]. pose proof (level_flags (Tracker.difficulty r)) as Hf.
  destruct (String.eqb (Tracker.difficulty r) "EASY"),
           (String.eqb (Tracker.difficulty r) "MEDIUM"),
           (String.eqb (Tracker.difficulty r) "HARD"),
           (bool_decide (In (Tracker.difficulty r) DIFFICULTY_LEVELS));
    cbn [Z.b2z] in Hf; cbn [length]; lia.
Qed.

Lemma attempts_in_count (fsum : list float -> float)
    (self : Tracker.PerformanceTracker) (d : string) :
  In d DIFFICULTY_LEVELS ->
  Tracker.attempts_in (Tracker.get_difficulty_stats fsum self) d
  = len (List.filter (fun r => String.eqb (Tracker.difficulty r) d)
           (Tracker.records self)).
Proof.
  intros Hd. unfold Tracker.attempts_in. rewrite stats_lookup.
  unfold Tracker.records_of.
  destruct (List.filter _ (Tracker.records self)) as [|r rs]; [reflexivity|].
  rewrite bool_decide_eq_true_2 by exact Hd. reflexivity.
Qed.

(** X15: the attempts reported for EASY, MEDIUM and HARD add up to the
    number of records logged under one of these three names: never more
    than the number of records, and exactly that number when every record
    carries a level name. *)
Theorem X15_stats_attempts_add_up (fsum : list float -> float)
    (self : Tracker.PerformanceTracker) :
  Tracker.attempts_in (Tracker.get_difficulty_stats fsum self) "EASY"
  + Tracker.attempts_in (Tracker.get_difficulty_stats fsum self) "MEDIUM"
  + Tracker.attempts_in (Tracker.get_difficulty_stats fsum self) "HARD"
  <= len (Tracker.records self)
  /\ (Forall (fun r => In (Tracker.difficulty r) DIFFICULTY_LEVELS)
        (Tracker.records self) ->
      Tracker.attempts_in (Tracker.get_difficulty_stats fsum self) "EASY"
      + Tracker.attempts_in (Tracker.get_difficulty_stats fsum self) "MEDIUM"
      + Tracker.attempts_in (Tracker.get_difficulty_stats fsum self) "HARD"
      = len (Tracker.records self)).
Proof.
  rewrite !attempts_in_count by (cbn; tauto).
  rewrite filter_levels_count. split.
  - unfold len. pose proof (List.filter_length_le
      (fun r => bool_decide (In (Tracker.difficulty r) DIFFICULTY_LEVELS))
      (Tracker.records self)). lia.
  - intros Hall. f_equal.
    induction Hall as [|r rs Hr Hall IH]; [reflexivity|].
    cbn [List.filter]. rewrite bool_decide_eq_true_2 by exact Hr.
    now rewrite IH.
Qed.

Lemma X15_stats_attempts_add_up_witness :
  Tracker.attempts_in
    (Tracker.get_difficulty_stats (fun _ => 0%float)
       (Tracker.log_attempt (Tracker.__init__ "Ada" 0) 1 "EASY" true 4%float
          7 7 1)) "EASY"
  + Tracker.attempts_in
      (Tracker.get_difficulty_stats (fun _ => 0%float)
         (Tracker.log_attempt (Tracker.__init__ "Ada" 0) 1 "EASY" true 4%float
            7 7 1)) "MEDIUM"
  + Tracker.attempts_in
      (Tracker.get_difficulty_stats (fun _ => 0%float)
         (Tracker.log_attempt (Tracker.__init__ "Ada" 0) 1 "EASY" true 4%float
            7 7 1)) "HARD"
  = len (Tracker.records
           (Tracker.log_attempt (Tracker.__init__ "Ada" 0) 1 "EASY" true
              4%float 7 7 1)).
Proof.
  apply (proj2 (X15_stats_attempts_add_up (fun _ => 0%float)
                  (Tracker.log_attempt (Tracker.__init__ "Ada" 0) 1 "EASY" true
                     4%float 7 7 1))).
  repeat constructor.
Defined.

(** ** Generated puzzles *)

Lemma draws_in_range_bounds (d : Puzzle.DifficultyLevel) (r : Puzzle.Draws) :
  Puzzle.draws_in_range d r ->
  fst (Puzzle.operand_range (Puzzle.DIFFICULTY_CONFIG d)) <= Puzzle.randint1 r
  /\ Puzzle.randint1 r <= snd (Puzzle.operand_range (Puzzle.DIFFICULTY_CONFIG d))
  /\ 1 <= Puzzle.randint2 r
  /\ Puzzle.randint2 r <= snd (Puzzle.operand_range (Puzzle.DIFFICULTY_CONFIG d))
  /\ 1 <= Puzzle.randint1 r
  /\ In (Puzzle.choice r) (Puzzle.operations (Puzzle.DIFFICULTY_CONFIG d))
  /\ 2 <= Puzzle.randint3 r <= 5.
Proof.
  destruct d; unfold Puzzle.draws_in_range; cbn -[Z.div Z.max];
    intros (H1 & H2 & Hin & H3); repeat split; try lia; try exact Hin.
Qed.

Lemma operations_known (d : Puzzle.DifficultyLevel) (op : string) :
  In op (Puzzle.operations (Puzzle.DIFFICULTY_CONFIG d)) ->
  In op Puzzle.OPERATIONS.
Proof. destruct d; cbn; tauto. Qed.

(** X16: with draws as [random] delivers them, [generate_puzzle] always
    returns a puzzle ([correct_answer] is never unbound), of the requested
    level, with an operation the level allows, a first operand inside the
    level's range and a second operand between 1 and the top of the
    range. *)
Theorem X16_puzzle_well_formed (d : Puzzle.DifficultyLevel)
    (r : Puzzle.Draws) :
  Puzzle.draws_in_range d r ->
  exists p,
    Puzzle.generate_puzzle d r = Puzzle.Return p
    /\ Puzzle.difficulty p = d
    /\ In (Puzzle.operation p) (Puzzle.operations (Puzzle.DIFFICULTY_CONFIG d))
    /\ fst (Puzzle.operand_range (Puzzle.DIFFICULTY_CONFIG d))
       <= Puzzle.operand1 p
       <= snd (Puzzle.operand_range (Puzzle.DIFFICULTY_CONFIG d))
    /\ 1 <= Puzzle.operand2 p
         <= snd (Puzzle.operand_range (Puzzle.DIFFICULTY_CONFIG d)).
Proof.
  intros Hr.
  destruct (draws_in_range_bounds d r Hr)
    as (Hlo & Hhi & H2lo & H2hi & H1pos & Hin & H3).
  pose proof (operations_known d _ Hin) as Hop.
  unfold Puzzle.generate_puzzle.
  destruct (Puzzle.operand_range (Puzzle.DIFFICULTY_CONFIG d)) as [lo hi].
  cbn [fst snd] in *.
  destruct Hop as [E | [E | [E | [E | []]]]]; rewrite <- E in *; cbn;
    eexists; (split; [reflexivity|]); cbn;
    (split; [reflexivity|]); (split; [exact Hin|]); (split; [lia|]);
    try lia.
  assert (0 <= Puzzle.randint1 r / Puzzle.randint3 r <= Puzzle.randint1 r).
  { split; [apply Z.div_pos; lia|].
    apply Z.div_le_upper_bound; [lia|]. nia. }
  lia.
Qed.

Lemma X16_puzzle_well_formed_witness :
  exists p,
    Puzzle.generate_puzzle Puzzle.HARD
      {| Puzzle.randint1 := 10; Puzzle.randint2 := 60;
         Puzzle.choice := "/"; Puzzle.randint3 := 3 |}
    = Puzzle.Return p
    /\ Puzzle.difficulty p = Puzzle.HARD
    /\ In (Puzzle.operation p)
          (Puzzle.operations (Puzzle.DIFFICULTY_CONFIG Puzzle.HARD))
    /\ fst (Puzzle.operand_range (Puzzle.DIFFICULTY_CONFIG Puzzle.HARD))
       <= Puzzle.operand1 p
       <= snd (Puzzle.operand_range (Puzzle.DIFFICULTY_CONFIG Puzzle.HARD))
    /\ 1 <= Puzzle.operand2 p
         <= snd (Puzzle.operand_range (Puzzle.DIFFICULTY_CONFIG Puzzle.HARD)).
Proof.
  apply (X16_puzzle_well_formed Puzzle.HARD
           {| Puzzle.randint1 := 10; Puzzle.randint2 := 60;
              Puzzle.choice := "/"; Puzzle.randint3 := 3 |}).
  cbn. repeat split; try (vm_compute; discriminate). tauto.
Defined.

(** The four ways a call with draws in range ends. *)
Lemma generate_puzzle_cases (d : Puzzle.DifficultyLevel) (r : Puzzle.Draws) :
  Puzzle.draws_in_range d r ->
  let mk op2 ans :=
    Puzzle.Return {| Puzzle.operand1 := Puzzle.randint1 r;
                     Puzzle.operand2 := op2;
                     Puzzle.operation := Puzzle.choice r;
                     Puzzle.correct_answer := ans;
                     Puzzle.difficulty := d |} in
  (Puzzle.choice r = "+"%string
   /\ Puzzle.generate_puzzle d r
      = mk (Puzzle.randint2 r) (Puzzle.randint1 r + Puzzle.randint2 r))
  \/ (Puzzle.choice r = "-"%string
      /\ Puzzle.generate_puzzle d r
         = mk (Puzzle.randint2 r) (Puzzle.randint1 r - Puzzle.randint2 r))
  \/ (Puzzle.choice r = "*"%string /\ d <> Puzzle.EASY
      /\ Puzzle.generate_puzzle d r
         = mk (Puzzle.randint2 r) (Puzzle.randint1 r * Puzzle.randint2 r))
  \/ (Puzzle.choice r = "/"%string /\ d = Puzzle.HARD
      /\ Puzzle.generate_puzzle d r
         = mk (Z.max 1 (Puzzle.randint1 r / Puzzle.randint3 r))
              (Puzzle.randint1 r
               / Z.max 1 (Puzzle.randint1 r / Puzzle.randint3 r))).
Proof.
  intros Hr mk. subst mk.
  destruct (draws_in_range_bounds d r Hr) as (_ & _ & _ & _ & _ & Hin & _).
  unfold Puzzle.generate_puzzle.
  destruct (Puzzle.operand_range (Puzzle.DIFFICULTY_CONFIG d)) as [lo hi].
  destruct d; cbn in Hin; intuition (try discriminate);
    match goal with E : _ = Puzzle.choice r |- _ => rewrite <- E; cbn end;
    auto 10.
Qed.

Lemma quotient_facts (a k : Z) :
  10 <= a -> 2 <= k <= 5 ->
  let op2 := Z.max 1 (a / k) in
  2 <= op2 <= a
  /\ op2 * (a / op2) <= a < op2 * (a / op2 + 1)
  /\ k <= a / op2 <= a
  /\ (a mod k < a / k -> a / op2 = k /\ a mod op2 = a mod k).
Proof.
  intros Ha Hk op2.
  assert (Hq : 2 <= a / k) by (apply Z.div_le_lower_bound; lia).
  assert (Hqa : a / k <= a) by (apply Z.div_le_upper_bound; nia).
  assert (Hop : op2 = a / k) by (subst op2; lia).
  rewrite Hop. clear Hop op2.
  pose proof (Z.div_mod a k ltac:(lia)) as Hdm.
  pose proof (Z.mod_pos_bound a k ltac:(lia)) as Hrem.
  split; [lia|]. split.
  - split; [apply Z.mul_div_le; lia|].
    rewrite Z.mul_add_distr_l, Z.mul_1_r.
    pose proof (Z.mod_pos_bound a (a / k) ltac:(lia)).
    pose proof (Z.div_mod a (a / k) ltac:(lia)). lia.
  - split.
    + split; [apply Z.div_le_lower_bound; nia|].
      apply Z.div_le_upper_bound; nia.
    + intros Hsmall. split.
      * symmetry. apply Z.div_unique with (a mod k); lia.
      * symmetry. apply Z.mod_unique with k; lia.
Qed.

(** X17: the stored answer of a generated puzzle is the value of the
    expression the puzzle displays, under integer arithmetic.  A division
    is never by zero and its answer is the floor quotient, at least the
    drawn number; whenever the remainder of the first operand by the drawn
    number is below their quotient, the answer is the drawn number and the
    puzzle keeps that remainder, so the division is exact only if the drawn
    number divides the first operand. *)
Theorem X17_answer_is_displayed_value (d : Puzzle.DifficultyLevel)
    (r : Puzzle.Draws) (p : Puzzle.MathPuzzle) :
  Puzzle.draws_in_range d r ->
  Puzzle.generate_puzzle d r = Puzzle.Return p ->
  Puzzle.displayed_value p = Some (Puzzle.correct_answer p)
  /\ (Puzzle.operation p = "/"%string ->
      2 <= Puzzle.operand2 p <= Puzzle.operand1 p
      /\ Puzzle.operand2 p * Puzzle.correct_answer p <= Puzzle.operand1 p
         < Puzzle.operand2 p * (Puzzle.correct_answer p + 1)
      /\ Puzzle.randint3 r <= Puzzle.correct_answer p
      /\ (Puzzle.randint1 r mod Puzzle.randint3 r
          < Puzzle.randint1 r / Puzzle.randint3 r ->
          Puzzle.correct_answer p = Puzzle.randint3 r
          /\ Puzzle.operand1 p mod Puzzle.operand2 p
             = Puzzle.randint1 r mod Puzzle.randint3 r)).
Proof.
  intros Hr Hgen.
  pose proof (draws_in_range_bounds d r Hr) as (Hlo & _ & _ & _ & _ & _ & H3).
  destruct (generate_puzzle_cases d r Hr)
    as [[E Hp] | [[E Hp] | [(E & _ & Hp) | (E & -> & Hp)]]];
    rewrite Hp in Hgen; injection Hgen as <-;
    unfold Puzzle.displayed_value; cbn; rewrite E; cbn.
  1-3: split; [reflexivity | discriminate].
  cbn in Hlo.
  pose proof (quotient_facts (Puzzle.randint1 r) (Puzzle.randint3 r) Hlo H3)
    as (Hop & Hqr & Hk & Hex).
  cbv zeta in *.
  destruct (Z.eqb_spec (Z.max 1 (Puzzle.randint1 r / Puzzle.randint3 r)) 0);
    [lia|].
  split; [reflexivity|]. intros _.
  split; [exact Hop|]. split; [exact Hqr|]. split; [lia | exact Hex].
Qed.

Lemma X17_answer_is_displayed_value_witness :
  Puzzle.displayed_value
    {| Puzzle.operand1 := 10; Puzzle.operand2 := 3; Puzzle.operation := "/";
       Puzzle.correct_answer := 3; Puzzle.difficulty := Puzzle.HARD |}
  = Some 3
  /\ 10 mod 3 = 1.
Proof.
  pose proof (X17_answer_is_displayed_value Puzzle.HARD
                {| Puzzle.randint1 := 10; Puzzle.randint2 := 60;
                   Puzzle.choice := "/"; Puzzle.randint3 := 3 |}
                {| Puzzle.operand1 := 10; Puzzle.operand2 := 3;
                   Puzzle.operation := "/"; Puzzle.correct_answer := 3;
                   Puzzle.difficulty := Puzzle.HARD |}) as H.
  destruct H as [Hval Hdiv].
  - cbn. repeat split; try (vm_compute; discriminate). tauto.
  - vm_compute. reflexivity.
  - split; [exact Hval|].
    destruct (Hdiv eq_refl) as (_ & _ & _ & Hex).
    destruct Hex as [_ Hrem]; [vm_compute; reflexivity|]. exact Hrem.
Defined.

(** X18: the answers of a level lie between fixed bounds: -9 and 20 on
    EASY, -45 and 2500 on MEDIUM, -90 and 10000 on HARD, so a subtraction
    may well ask for a negative number; both bounds of every level are
    reached by draws in range. *)
Theorem X18_answer_bounds (d : Puzzle.DifficultyLevel) :
  (forall r p,
     Puzzle.draws_in_range d r ->
     Puzzle.generate_puzzle d r = Puzzle.Return p ->
     fst (Puzzle.answer_bounds d) <= Puzzle.correct_answer p
     <= snd (Puzzle.answer_bounds d))
  /\ (exists r p,
        Puzzle.draws_in_range d r
        /\ Puzzle.generate_puzzle d r = Puzzle.Return p
        /\ Puzzle.correct_answer p = fst (Puzzle.answer_bounds d))
  /\ (exists r p,
        Puzzle.draws_in_range d r
        /\ Puzzle.generate_puzzle d r = Puzzle.Return p
        /\ Puzzle.correct_answer p = snd (Puzzle.answer_bounds d)).
Proof.
  split; [|split].
  - intros r p Hr Hgen.
    pose proof (draws_in_range_bounds d r Hr)
      as (Hlo & Hhi & H2lo & H2hi & H1 & _ & H3).
    destruct (generate_puzzle_cases d r Hr)
      as [[E Hp] | [[E Hp] | [(E & Hd & Hp) | (E & -> & Hp)]]];
      rewrite Hp in Hgen; injection Hgen as <-; cbn [Puzzle.correct_answer].
    + destruct d; cbn in *; lia.
    + destruct d; cbn in *; lia.
    + assert (Hr2 : Z.max 1 (fst (Puzzle.operand_range
                                    (Puzzle.DIFFICULTY_CONFIG d)) / 2)
                    <= Puzzle.randint2 r).
      { unfold Puzzle.draws_in_range in Hr.
        destruct (Puzzle.operand_range (Puzzle.DIFFICULTY_CONFIG d)).
        cbn [fst]. tauto. }
      destruct d; [congruence| |]; cbn -[Z.mul] in *; nia.
    + cbn in Hlo, Hhi.
      pose proof (quotient_facts (Puzzle.randint1 r) (Puzzle.randint3 r)
                    Hlo H3) as (_ & _ & Hk & _).
      cbv zeta in Hk. cbn. lia.
  - destruct d.
    + exists {| Puzzle.randint1 := 1; Puzzle.randint2 := 10;
                Puzzle.choice := "-"; Puzzle.randint3 := 2 |}.
      eexists. split; [|split; reflexivity].
      cbn. repeat split; try (vm_compute; discriminate). tauto.
    + exists {| Puzzle.randint1 := 5; Puzzle.randint2 := 50;
                Puzzle.choice := "-"; Puzzle.randint3 := 2 |}.
      eexists. split; [|split; reflexivity].
      cbn. repeat split; try (vm_compute; discriminate). tauto.
    + exists {| Puzzle.randint1 := 10; Puzzle.randint2 := 100;
                Puzzle.choice := "-"; Puzzle.randint3 := 2 |}.
      eexists. split; [|split; reflexivity].
      cbn. repeat split; try (vm_compute; discriminate). tauto.
  - destruct d.
    + exists {| Puzzle.randint1 := 10; Puzzle.randint2 := 10;
                Puzzle.choice := "+"; Puzzle.randint3 := 2 |}.
      eexists. split; [|split; reflexivity].
      cbn. repeat split; try (vm_compute; discriminate). tauto.
    + exists {| Puzzle.randint1 := 50; Puzzle.randint2 := 50;
                Puzzle.choice := "*"; Puzzle.randint3 := 2 |}.
      eexists. split; [|split; reflexivity].
      cbn. repeat split; try (vm_compute; discriminate). tauto.
    + exists {| Puzzle.randint1 := 100; Puzzle.randint2 := 100;
                Puzzle.choice := "*"; Puzzle.randint3 := 2 |}.
      eexists. split; [|split; reflexivity].
      cbn. repeat split; try (vm_compute; discriminate). tauto.
Qed.

(** X19: the lookup [DifficultyLevel[name]] succeeds on exactly the names of
    the engine's [DIFFICULTY_LEVELS], so every level the engine can return
    names a member of the generator's enum; the value of the member is the
    engine's rank plus one. *)
Theorem X19_enum_matches_engine_levels (name : string) :
  ((exists d, Puzzle.by_name name = Ok d) <-> In name DIFFICULTY_LEVELS)
  /\ (~ In name DIFFICULTY_LEVELS ->
      Puzzle.by_name name = Raise (KeyError (KStr name)))
  /\ (forall d, Puzzle.by_name name = Ok d ->
                DIFFICULTY_MAP !! name = Some (Puzzle.value d - 1)).
Proof.
  unfold Puzzle.by_name.
  destruct (String.eqb_spec name "EASY") as [->|E].
  { split; [split; [cbn; tauto | now exists Puzzle.EASY]|].
    split; [cbn; tauto|]. intros d [= <-]. vm_compute. reflexivity. }
  destruct (String.eqb_spec name "MEDIUM") as [->|M].
  { split; [split; [cbn; tauto | now exists Puzzle.MEDIUM]|].
    split; [cbn; tauto|]. intros d [= <-]. vm_compute. reflexivity. }
  destruct (String.eqb_spec name "HARD") as [->|H].
  { split; [split; [cbn; tauto | now exists Puzzle.HARD]|].
    split; [cbn; tauto|]. intros d [= <-]. vm_compute. reflexivity. }
  assert (Hout : ~ In name DIFFICULTY_LEVELS)
    by (cbn; intros [X | [X | [X | []]]]; congruence).
  split; [split; [intros [d Hd]; discriminate | contradiction]|].
  split; [reflexivity | discriminate].
Qed.

Lemma generate_batch_from_returns (d : Puzzle.DifficultyLevel)
    (draws : nat -> Puzzle.Draws) (n i : nat) :
  (forall j, Puzzle.draws_in_range d (draws j)) ->
  exists ps,
    Puzzle.generate_batch_from d draws i n = Puzzle.Return ps
    /\ length ps = n
    /\ forall k p, ps !! k = Some p ->
                   Puzzle.generate_puzzle d (draws (i + k)%nat)
                   = Puzzle.Return p.
Proof.
  intros Hr. revert i. induction n as [|n IH]; intros i; cbn.
  - exists []. split; [reflexivity|]. split; [reflexivity|].
    intros k p Hk. discriminate.
  - destruct (generate_puzzle_cases d (draws i) (Hr i))
      as [[_ Hp] | [[_ Hp] | [(_ & _ & Hp) | (_ & _ & Hp)]]];
      rewrite Hp; destruct (IH (S i)) as (ps & Hps & Hlen & Hnth);
      rewrite Hps; eexists; (split; [reflexivity|]);
      (split; [cbn; now rewrite Hlen|]);
      intros [|k] p Hk; cbn in Hk;
      [injection Hk as <-; now rewrite Nat.add_0_r
      |rewrite <- Nat.add_succ_comm; now apply Hnth
      |injection Hk as <-; now rewrite Nat.add_0_r
      |rewrite <- Nat.add_succ_comm; now apply Hnth
      |injection Hk as <-; now rewrite Nat.add_0_r
      |rewrite <- Nat.add_succ_comm; now apply Hnth
      |injection Hk as <-; now rewrite Nat.add_0_r
      |rewrite <- Nat.add_succ_comm; now apply Hnth].
Qed.

(** X20: with draws in range [generate_batch] returns [count] puzzles, none
    for a count of 0 or below, and the k-th puzzle is the one
    [generate_puzzle] makes from the k-th draws. *)
Theorem X20_batch_size_and_contents (d : Puzzle.DifficultyLevel) (count : Z)
    (draws : nat -> Puzzle.Draws) :
  (forall j, Puzzle.draws_in_range d (draws j)) ->
  exists ps,
    Puzzle.generate_batch d count draws = Puzzle.Return ps
    /\ len ps = Z.max count 0
    /\ forall k p, ps !! k = Some p ->
                   Puzzle.generate_puzzle d (draws k) = Puzzle.Return p.
Proof.
  intros Hr. unfold Puzzle.generate_batch.
  destruct (generate_batch_from_returns d draws (Z.to_nat count) 0 Hr)
    as (ps & Hps & Hlen & Hnth).
  exists ps. split; [exact Hps|]. split; [unfold len; lia|exact Hnth].
Qed.

Lemma X20_batch_size_and_contents_witness :
  exists ps,
    Puzzle.generate_batch Puzzle.EASY 2
      (fun _ => {| Puzzle.randint1 := 3; Puzzle.randint2 := 4;
                   Puzzle.choice := "+"; Puzzle.randint3 := 2 |})
    = Puzzle.Return ps
    /\ len ps = Z.max 2 0
    /\ forall k p, ps !! k = Some p ->
                   Puzzle.generate_puzzle Puzzle.EASY
                     {| Puzzle.randint1 := 3; Puzzle.randint2 := 4;
                        Puzzle.choice := "+"; Puzzle.randint3 := 2 |}
                   = Puzzle.Return p.
Proof.
  apply (X20_batch_size_and_contents Puzzle.EASY 2
           (fun _ => {| Puzzle.randint1 := 3; Puzzle.randint2 := 4;
                        Puzzle.choice := "+"; Puzzle.randint3 := 2 |})).
  intros _. cbn. repeat split; try (vm_compute; discriminate). tauto.
Defined.

(** ** A session, round by round *)

Lemma generate_puzzle_returns (d : Puzzle.DifficultyLevel) (r : Puzzle.Draws) :
  Puzzle.draws_in_range d r ->
  exists p, Puzzle.generate_puzzle d r = Puzzle.Return p.
Proof.
  intros Hr.
  destruct (generate_puzzle_cases d r Hr)
    as [[_ Hp] | [[_ Hp] | [(_ & _ & Hp) | (_ & _ & Hp)]]];
    rewrite Hp; eexists; reflexivity.
Qed.

Lemma by_name_level (name : string) :
  In name DIFFICULTY_LEVELS -> exists d, Puzzle.by_name name = Ok d.
Proof.
  intros [<- | [<- | [<- | []]]]; eexists; reflexivity.
Qed.

Lemma slice_last_snoc_nonempty (A : Type) (l : list A) (x : A) (n : Z) :
  1 <= n -> slice_from (l ++ [x]) (- n) <> [].
Proof.
  intros Hn. rewrite slice_last by exact Hn. rewrite length_app. cbn [length].
  rewrite drop_app_le by lia. now destruct (drop _ l).
Qed.

Lemma chained_snoc (first : string) (h : list HistoryEntry) (cur : string)
    (e : HistoryEntry) :
  Main.chained first h cur -> from e = cur ->
  Main.chained first (h ++ [e]) (to e).
Proof.
  revert first. induction h as [|e0 h IH]; intros first; cbn.
  - intros <- Hf. now split.
  - intros [Hf Hc] He. split; [exact Hf|]. now apply IH.
Qed.

Lemma settled_level (new cur : string) :
  (if String.eqb new cur then cur else new) = new.
Proof. now destruct (String.eqb_spec new cur). Qed.

Lemma percentage_returns (rs : list Tracker.PerformanceRecord) :
  rs <> [] -> exists a, Tracker.percentage rs = Tracker.Return a.
Proof.
  intros Hne. unfold Tracker.percentage.
  destruct (Z.eqb_spec (len rs) 0) as [H0|_];
    [apply len_nil_iff in H0; contradiction|].
  eexists; reflexivity.
Qed.

(** One round keeps the session consistent; the only exception that can
    leave the loop uncaught is the [EOFError] of a closed input. *)
Lemma loop_body_consistent (first : string) (s : Main.Session)
    (t : Main.Turn) :
  Main.consistent first s ->
  Main.puzzle_count s < Main.max_puzzles ->
  Main.fair t ->
  match Main.loop_body s t with
  | Main.Continue s' | Main.Leave s' => Main.consistent first s'
  | Main.Abort f => f = Main.EOFError /\ Main.reply t = Main.EndOfInput
  end.
Proof.
  intros [Hlev Hcfg Hone Hcnt Hbound Hchain Hfl] Hlt Hfair.
  unfold Main.loop_body.
  destruct (by_name_level _ Hlev) as [denum ->].
  destruct (generate_puzzle_returns denum _ (Hfair denum)) as [puzzle ->].
  assert (Hskip : Main.consistent first
            {| Main.puzzle_count := Main.puzzle_count s + 1;
               Main.current_difficulty := Main.current_difficulty s;
               Main.tracker := Main.tracker s;
               Main.adaptive_engine := Main.adaptive_engine s |}).
  { constructor; cbn; try assumption. lia. }
  destruct (Main.reply t) as [| |user_answer| |];
    [exact Hskip | exact Hskip | | exact Hskip | now split].
  set (trk := Tracker.log_attempt _ _ _ _ _ _ _ _).
  set (trend := Tracker.get_performance_trend trk 5).
  set (times := map Tracker.time_taken (slice_from (Tracker.records trk) (- 5))).
  assert (Hwin : slice_from (Tracker.records trk) (- 5) <> []).
  { unfold trk. cbn [Tracker.log_attempt Tracker.records].
    apply (slice_last_snoc_nonempty _ _ _ 5). lia. }
  assert (Htrend : trend <> []).
  { unfold trend, Tracker.get_performance_trend.
    intros H. now apply map_eq_nil in H. }
  assert (Htimes : times <> []).
  { unfold times. intros H. now apply map_eq_nil in H. }
  destruct (levels_valid _ Hlev) as [d Hd].
  destruct (adapt_rule_total (Main.adaptive_engine s) times d trend)
    as [d' Hrule].
  rewrite <- Hd in Hrule.
  rewrite (get_next_difficulty_ok _ _ _ _ _ Hrule).
  assert (Hacc : exists a, Tracker.get_accuracy trk (Some 5) = Tracker.Return a).
  { unfold Tracker.get_accuracy.
    destruct (Tracker.records trk) as [|r0 rs0] eqn:Hrec.
    - unfold trk in Hrec. cbn in Hrec.
      now destruct (Tracker.records (Main.tracker s)).
    - apply percentage_returns. unfold Tracker.recent_records.
      cbn [Z.eqb]. now rewrite Hrec. }
  destruct Hacc as [a ->].
  rewrite settled_level.
  constructor;
    cbn [Main.current_difficulty Main.adaptive_engine Main.tracker
         Main.puzzle_count history_append bump_attempt_count config
         attempt_count history].
  - apply name_in_levels.
  - exact Hcfg.
  - unfold trk. cbn [Tracker.log_attempt Tracker.records].
    rewrite !map_app, Hone. reflexivity.
  - unfold len in *. rewrite length_app. cbn [length]. lia.
  - unfold trk. cbn [Tracker.log_attempt Tracker.records].
    unfold len in *. rewrite length_app. cbn [length]. lia.
  - apply (chained_snoc first _ (Main.current_difficulty s)
             {| attempt := attempt_count (Main.adaptive_engine s) + 1;
                from := Main.current_difficulty s; to := Spec.name d';
                accuracy := logged_accuracy trend;
                avg_time := logged_avg_time times |});
      [exact Hchain | reflexivity].
  - apply Forall_app. split; [exact Hfl|].
    constructor; [|constructor]. cbn [accuracy avg_time].
    destruct trend; [congruence|]. destruct times; [congruence|].
    eexists. eexists. split; reflexivity.
Qed.

Lemma start_consistent (user_name choice : string) (clock : Tracker.datetime)
    (s0 : Main.Session) :
  Main.start user_name choice clock = Some s0 ->
  Main.consistent (Main.current_difficulty s0) s0 /\ Main.puzzle_count s0 = 0.
Proof.
  unfold Main.start.
  destruct (Main.difficulty_map !! choice) as [cur|] eqn:Hmenu; [|discriminate].
  intros [= <-]. split; [|reflexivity].
  constructor; cbn; try reflexivity;
    try (unfold len, Main.max_puzzles; cbn; lia).
  - unfold Main.difficulty_map in Hmenu.
    rewrite !lookup_insert_Some, lookup_empty in Hmenu.
    cbn. intuition (try discriminate); subst; tauto.
  - constructor.
Qed.

Lemma run_loop_consistent (first : string) (turns : list Main.Turn)
    (s : Main.Session) :
  Main.consistent first s ->
  Forall Main.fair turns ->
  match Main.run_loop s turns with
  | Main.Done s' => Main.consistent first s'
  | Main.Crash f =>
    f = Main.EOFError
    /\ Exists (fun t => Main.reply t = Main.EndOfInput) turns
  end.
Proof.
  intros Hs Hfair. revert s Hs.
  induction Hfair as [|t turns Ht Hfair IH]; intros s Hs.
  - cbn. now destruct (Main.puzzle_count s <? Main.max_puzzles).
  - cbn [Main.run_loop].
    destruct (Z.ltb_spec (Main.puzzle_count s) Main.max_puzzles) as [Hlt|_];
      [|exact Hs].
    pose proof (loop_body_consistent first s t Hs Hlt Ht) as Hbody.
    destruct (Main.loop_body s t) as [s'|s'|f].
    + specialize (IH s' Hbody).
      destruct (Main.run_loop s' turns) as [s''|f]; [exact IH|].
      destruct IH as [Hf Hex]. split; [exact Hf|]. now apply Exists_cons_tl.
    + exact Hbody.
    + destruct Hbody as [Hf Hr]. split; [exact Hf|]. now apply Exists_cons_hd.
Qed.

(** X21: a session started from the menu never dies of an exception of the
    program's own making: with [random] keeping its ranges, the only
    uncaught exception is the [EOFError] of a closed input.  Otherwise the
    loop ends in a state where the level is one of the three names, tracker
    and engine hold one entry per answered puzzle (at most 10, and never
    more than the rounds played) with the engine's counter equal to that
    number, each decision starts from the level the previous one arrived at,
    the last one arriving at the current level, and every logged accuracy
    and average time is a computed float, never the placeholder 0. *)
Theorem X21_session_is_safe (user_name choice : string)
    (clock : Tracker.datetime) (s0 : Main.Session) (turns : list Main.Turn) :
  Main.start user_name choice clock = Some s0 ->
  Forall Main.fair turns ->
  match Main.run_loop s0 turns with
  | Main.Done s => Main.consistent (Main.current_difficulty s0) s
  | Main.Crash f =>
    f = Main.EOFError
    /\ Exists (fun t => Main.reply t = Main.EndOfInput) turns
  end.
Proof.
  intros Hstart Hfair.
  destruct (start_consistent _ _ _ _ Hstart) as [Hs _].
  now apply run_loop_consistent.
Qed.

Lemma X21_session_is_safe_witness :
  match
    Main.run_loop
      {| Main.puzzle_count := 0; Main.current_difficulty := "MEDIUM";
         Main.tracker := Tracker.__init__ "Ada" 0;
         Main.adaptive_engine := fresh Main.app_config |}
      [ {| Main.draws := fun _ => {| Puzzle.randint1 := 10;
                                     Puzzle.randint2 := 10;
                                     Puzzle.choice := "+";
                                     Puzzle.randint3 := 2 |};
           Main.reply := Main.Number 20;
           Main.elapsed_time := 3%float;
           Main.now := 1 |} ]
  with
  | Main.Done s => Main.consistent "MEDIUM" s
  | Main.Crash f =>
    f = Main.EOFError
    /\ Exists (fun t => Main.reply t = Main.EndOfInput)
         [ {| Main.draws := fun _ => {| Puzzle.randint1 := 10;
                                        Puzzle.randint2 := 10;
                                        Puzzle.choice := "+";
                                        Puzzle.randint3 := 2 |};
              Main.reply := Main.Number 20;
              Main.elapsed_time := 3%float;
              Main.now := 1 |} ]
  end.
Proof.
  apply (X21_session_is_safe "Ada" "2" 0
           {| Main.puzzle_count := 0; Main.current_difficulty := "MEDIUM";
              Main.tracker := Tracker.__init__ "Ada" 0;
              Main.adaptive_engine := fresh Main.app_config |}).
  - vm_compute. reflexivity.
  - constructor; [|constructor].
    intros d. destruct d; cbn;
      repeat split; try (vm_compute; discriminate); tauto.
Defined.

(** X22: the first answer of a session never changes the level, right or
    wrong, fast or slow: the application asks for two attempts before any
    change and the window then holds one. *)
Theorem X22_first_answer_keeps_level (first : string) (s : Main.Session)
    (t : Main.Turn) (user_answer : Z) :
  Main.consistent first s ->
  Tracker.records (Main.tracker s) = [] ->
  Main.fair t ->
  Main.reply t = Main.Number user_answer ->
  exists s',
    Main.loop_body s t = Main.Continue s'
    /\ Main.current_difficulty s' = Main.current_difficulty s
    /\ len (Tracker.records (Main.tracker s')) = 1
    /\ len (history (Main.adaptive_engine s'))
       = len (history (Main.adaptive_engine s)) + 1.
Proof.
  intros [Hlev Hcfg _ _ _ _ _] Hrec Hfair Hreply.
  unfold Main.loop_body.
  destruct (by_name_level _ Hlev) as [denum ->].
  destruct (generate_puzzle_returns denum _ (Hfair denum)) as [puzzle ->].
  rewrite Hreply.
  unfold Tracker.get_performance_trend, Tracker.get_accuracy,
    Tracker.recent_records, Tracker.percentage.
  cbn [Tracker.log_attempt Tracker.records]. rewrite Hrec.
  cbn [app map slice_from Tracker.correct Tracker.time_taken].
  change (slice_from [?r] (-5)) with [r].
  cbn [map Tracker.correct Tracker.time_taken].
  rewrite (get_next_difficulty_ok _ _ _ _ (Main.current_difficulty s)).
  - cbn [Z.eqb len length Z.of_nat]. rewrite String.eqb_refl.
    eexists. split; [reflexivity|].
    cbn [Main.current_difficulty Main.tracker Main.adaptive_engine
         Tracker.records history_append bump_attempt_count history].
    split; [reflexivity|].
    split; [cbn [Tracker.log_attempt Tracker.records]; now rewrite Hrec|].
    unfold len. rewrite length_app. cbn [length]. lia.
  - apply adapt_rule_gate. right. rewrite Hcfg. reflexivity.
Qed.

Lemma X22_first_answer_keeps_level_witness :
  exists s',
    Main.loop_body
      {| Main.puzzle_count := 0; Main.current_difficulty := "MEDIUM";
         Main.tracker := Tracker.__init__ "Ada" 0;
         Main.adaptive_engine := fresh Main.app_config |}
      {| Main.draws := fun _ => {| Puzzle.randint1 := 10;
                                   Puzzle.randint2 := 10;
                                   Puzzle.choice := "+";
                                   Puzzle.randint3 := 2 |};
         Main.reply := Main.Number 20;
         Main.elapsed_time := 3%float;
         Main.now := 1 |}
    = Main.Continue s'
    /\ Main.current_difficulty s' = "MEDIUM"%string
    /\ len (Tracker.records (Main.tracker s')) = 1
    /\ len (history (Main.adaptive_engine s'))
       = len (history (fresh Main.app_config)) + 1.
Proof.
  apply (X22_first_answer_keeps_level "MEDIUM"
           {| Main.puzzle_count := 0; Main.current_difficulty := "MEDIUM";
              Main.tracker := Tracker.__init__ "Ada" 0;
              Main.adaptive_engine := fresh Main.app_config |}
           {| Main.draws := fun _ => {| Puzzle.randint1 := 10;
                                        Puzzle.randint2 := 10;
                                        Puzzle.choice := "+";
                                        Puzzle.randint3 := 2 |};
              Main.reply := Main.Number 20;
              Main.elapsed_time := 3%float;
              Main.now := 1 |} 20).
  - constructor; cbn; try reflexivity;
      try (unfold len, Main.max_puzzles; cbn; lia); [tauto | constructor].
  - reflexivity.
  - intros d. destruct d; cbn;
      repeat split; try (vm_compute; discriminate); tauto.
  - reflexivity.
Defined.
